(** * COVID-19 dashboard (pds-main): the statistics core

    A shallow embedding of the two Python modules that carry the
    computations of the dashboard:

    - [src/api_client.py]: ingestion of the historical time series
      ([get_historical_df]) and its synthetic fallback
      ([_get_sample_historical_df]);
    - [src/utils.py]: rates, rolling average, R0 estimate, doubling time,
      herd-immunity threshold, trend direction, date filter, peak lookup.

    Conventions of the embedding:

    - a Python [int] is a [Z]; a Python or NumPy [float] is a binary64
      [float] (the kernel's primitive floats), so rounding is the code's;
    - a column of counts is an int64 column whose values are taken to
      fit: its differences wrap and pass through float64 as pandas has
      them, and its means are float64 means;
    - a [str] is held as its UTF-8 bytes;
    - a call either returns or raises: [outcome];
    - a pandas [DataFrame] is the list of its rows in positional order,
      each with its index label;
    - the process-wide NumPy random state is threaded explicitly. *)

From Stdlib Require Import String Ascii ZArith List Bool Lia Floats.
From Stdlib Require Import Sorted Permutation.
Import ListNotations.

Set Warnings "-inexact-float".
Local Open Scope Z_scope.

(* ================================================================= *)
(** * Python values *)

Module Py.

(** The exceptions the modelled code can raise; [DataError] is
    [pandas.errors.DataError]. *)
Inductive exn : Type :=
| ValueError (msg : string)
| ZeroDivisionError
| KeyError (key : string)
| IndexError
| OverflowError
| TypeError
| AttributeError
| DataError.

(** The result of a call. *)
Inductive outcome (A : Type) : Type :=
| Returned (a : A)
| Raised (e : exn).

Arguments Returned {A} a.
Arguments Raised {A} e.

Definition bind {A B : Type} (m : outcome A) (k : A -> outcome B) : outcome B :=
  match m with
  | Returned a => k a
  | Raised e => Raised e
  end.

(** [float(z)]: the binary64 value nearest to the integer [z]
    (round to nearest, ties to even). *)
Definition Z2float (z : Z) : float :=
  SF2Prim (binary_normalize prec emax z 0 false).

(** An integer as an exact floating-point number with exponent 0: the
    mantissa is as long as the integer is. *)
Definition SF_of_int (z : Z) : spec_float :=
  match z with
  | Z0 => S754_zero false
  | Zpos p => S754_finite false p 0
  | Zneg p => S754_finite true p 0
  end.

(** [int / int]. CPython raises on a zero divisor, rounds the exact
    quotient once to the nearest binary64 value (ties to even), and
    raises [OverflowError] when that value is beyond the largest float.
    [SFdiv] divides the two mantissas exactly before it rounds, whatever
    their length. *)
Definition int_truediv (a b : Z) : outcome float :=
  if b =? 0 then Raised ZeroDivisionError
  else match SFdiv prec emax (SF_of_int a) (SF_of_int b) with
       | S754_infinity _ => Raised OverflowError
       | q => Returned (SF2Prim q)
       end.

(** [float / float] on Python floats: raises on a zero divisor. *)
Definition float_truediv (a b : float) : outcome float :=
  if (b =? 0)%float then Raised ZeroDivisionError
  else Returned (a / b)%float.

(** The builtins [min(a, b)] and [max(a, b)] on two floats: the first
    argument is kept unless the second is strictly smaller (larger). *)
Definition py_min (a b : float) : float := if (b <? a)%float then b else a.
Definition py_max (a b : float) : float := if (a <? b)%float then b else a.

(** [numpy.ndarray.astype(int)] on a float whose integer part fits
    int64: truncation toward zero. The result for any other float is
    not defined by NumPy; here it is the exact integer part, and 0 for a
    non-finite float ([astype_int64] has what x86-64 gives). *)
Definition astype_int (f : float) : Z :=
  match Prim2SF f with
  | S754_finite s m e =>
      let a := match e with
               | Z0 => Zpos m
               | Zpos _ => Z.shiftl (Zpos m) e
               | Zneg p => Z.shiftr (Zpos m) (Zpos p)
               end in
      if s then - a else a
  | _ => 0
  end.

(** The same cast as x86-64 performs it: a finite float whose integer
    part fits int64 is truncated, every other float gives [-2^63]. *)
Definition astype_int64 (f : float) : Z :=
  match Prim2SF f with
  | S754_zero _ => 0
  | S754_finite _ _ _ =>
      let z := astype_int f in
      if (- 2 ^ 63 <=? z) && (z <? 2 ^ 63) then z else - 2 ^ 63
  | _ => - 2 ^ 63
  end.

(** [a.clip(min=lo)] and [s.clip(lower=lo)] on one float: a value below
    the bound is replaced by the bound. *)
Definition clip_min (lo x : float) : float := if (x <? lo)%float then lo else x.

End Py.

Export Py.

Declare Scope py_scope.
Notation "x <- m ;; k" := (bind m (fun x => k))
  (at level 61, m at next level, right associativity) : py_scope.
Local Open Scope py_scope.

(** The functions of libm and of [numpy.random] that the code calls.
    Their results are not fixed by IEEE 754, so they are an interface;
    the laws are the two facts the code relies on: [pow(x, 1.0)] is [x],
    and a sample of size [n] has [n] values.

    The last two fields are the means pandas computes when the float64
    sums behind them are not exact: the result then depends on the order
    in which pandas adds (and, in a rolling window, removes) the values.
    [inexact_mean xs] is [Series.mean()] of the column [xs], and
    [inexact_rolling_mean window xs i] is the value at position [i] of
    [xs.rolling(window, min_periods=1).mean()]. *)
Class NumPy : Type := {
  RandomState : Type;
  np_random_seed : Z -> RandomState;
  np_random_normal : float -> float -> nat -> RandomState -> list float * RandomState;
  np_random_normal_size :
    forall loc scale n g, length (fst (np_random_normal loc scale n g)) = n;
  np_exp : float -> float;
  np_log : float -> float;
  float_pow : float -> float -> float;
  float_pow_one : forall x, float_pow x 1%float = x;
  inexact_mean : list Z -> float;
  inexact_rolling_mean : Z -> list Z -> nat -> float
}.

(* ================================================================= *)
(** * Calendar: [datetime.strptime(s, "%m/%d/%y")] and ordinals *)

Module Calendar.

(** A [datetime] at midnight is its proleptic Gregorian ordinal
    ([date.toordinal()]); comparing timestamps is comparing ordinals. *)
Definition is_leap (y : Z) : bool :=
  (y mod 4 =? 0) && (negb (y mod 100 =? 0) || (y mod 400 =? 0)).

Definition days_in_month (y m : Z) : Z :=
  if m =? 2 then (if is_leap y then 29 else 28)
  else if (m =? 4) || (m =? 6) || (m =? 9) || (m =? 11) then 30
  else 31.

Definition days_before_year (y : Z) : Z :=
  let y1 := y - 1 in y1 * 365 + y1 / 4 - y1 / 100 + y1 / 400.

Definition days_before_month (y m : Z) : Z :=
  fold_left (fun acc k => acc + days_in_month y (Z.of_nat k))
            (seq 1 (Z.to_nat (m - 1))) 0.

Definition ymd2ord (y m d : Z) : Z :=
  days_before_year y + days_before_month y m + d.

(** [datetime(y, m, d)]: [None] for the [ValueError] of an impossible date. *)
Definition make_date (y m d : Z) : option Z :=
  if (1 <=? m) && (m <=? 12) && (1 <=? d) && (d <=? days_in_month y m)
  then Some (ymd2ord y m d) else None.

(** A [str] is held as its UTF-8 bytes. [digit] reads one of the ASCII
    characters [0-9], as the character classes of the directives do. *)
Definition digit (c : ascii) : option Z :=
  let n := Z.of_nat (nat_of_ascii c) in
  if (48 <=? n) && (n <=? 57) then Some (n - 48) else None.

Definition continuation (c : ascii) : option Z :=
  let n := Z.of_nat (nat_of_ascii c) in
  if (128 <=? n) && (n <? 192) then Some (n - 128) else None.

(** The code points of a [str]; [None] for bytes that encode none. *)
Fixpoint code_points (s : string) : option (list Z) :=
  match s with
  | EmptyString => Some []
  | String a s1 =>
      let n := Z.of_nat (nat_of_ascii a) in
      if n <? 128 then option_map (cons n) (code_points s1)
      else if (192 <=? n) && (n <? 224) then
        match s1 with
        | String b s2 =>
            match continuation b with
            | Some x => option_map (cons ((n - 192) * 64 + x)) (code_points s2)
            | None => None
            end
        | _ => None
        end
      else if (224 <=? n) && (n <? 240) then
        match s1 with
        | String b (String c s3) =>
            match continuation b, continuation c with
            | Some x, Some y =>
                option_map (cons (((n - 224) * 64 + x) * 64 + y))
                           (code_points s3)
            | _, _ => None
            end
        | _ => None
        end
      else if (240 <=? n) && (n <? 248) then
        match s1 with
        | String b (String c (String d s4)) =>
            match continuation b, continuation c, continuation d with
            | Some x, Some y, Some z =>
                option_map (cons ((((n - 240) * 64 + x) * 64 + y) * 64 + z))
                           (code_points s4)
            | _, _, _ => None
            end
        | _ => None
        end
      else None
  end.

(** The zeros of the decimal digits of Unicode 14.0 (category Nd, the
    table of CPython 3.11): each is followed by its 1 to 9. *)
Definition decimal_zeros : list Z :=
  [48; 1632; 1776; 1984; 2406; 2534; 2662; 2790; 2918; 3046; 3174; 3302;
   3430; 3558; 3664; 3792; 3872; 4160; 4240; 6112; 6160; 6470; 6608; 6784;
   6800; 6992; 7088; 7232; 7248; 42528; 43216; 43264; 43472; 43504; 43600;
   44016; 65296; 66720; 68912; 69734; 69872; 69942; 70096; 70384; 70736;
   70864; 71248; 71360; 71472; 71904; 72016; 72784; 73040; 73120; 92768;
   92864; 93008; 120782; 120792; 120802; 120812; 120822; 123200; 123632;
   125264; 130032].

(** What the pattern [\d] matches, and the value [int] gives it: any
    decimal digit, not only an ASCII one. *)
Definition decimal_digit (cp : Z) : option Z :=
  match find (fun zero => (zero <=? cp) && (cp <? zero + 10)) decimal_zeros with
  | Some zero => Some (cp - zero)
  | None => None
  end.

Fixpoint split_on (sep : ascii) (s : string) : list string :=
  match s with
  | EmptyString => [EmptyString]
  | String c rest =>
      if Ascii.eqb c sep then EmptyString :: split_on sep rest
      else match split_on sep rest with
           | [] => [String c EmptyString]
           | h :: t => String c h :: t
           end
  end.

(** The directive [%m]: [1[0-2]|0[1-9]|[1-9]]. *)
Definition directive_m (s : string) : option Z :=
  match s with
  | String a EmptyString =>
      match digit a with
      | Some d => if 1 <=? d then Some d else None
      | None => None
      end
  | String a (String b EmptyString) =>
      match digit a, digit b with
      | Some 1, Some d => if d <=? 2 then Some (10 + d) else None
      | Some 0, Some d => if 1 <=? d then Some d else None
      | _, _ => None
      end
  | _ => None
  end.

(** The directive [%d]: [3[0-1]|[1-2]\d|0[1-9]|[1-9]| [1-9]]. *)
Definition directive_d (s : string) : option Z :=
  match s with
  | String a EmptyString =>
      match digit a with
      | Some d => if 1 <=? d then Some d else None
      | None => None
      end
  | String a rest =>
      if Ascii.eqb a " " then
        match rest with
        | String b EmptyString =>
            match digit b with
            | Some d => if 1 <=? d then Some d else None
            | None => None
            end
        | _ => None
        end
      else
        match digit a with
        | Some 0 =>
            match rest with
            | String b EmptyString =>
                match digit b with
                | Some d => if 1 <=? d then Some d else None
                | None => None
                end
            | _ => None
            end
        | Some 1 =>
            match code_points rest with
            | Some [b] => option_map (Z.add 10) (decimal_digit b)
            | _ => None
            end
        | Some 2 =>
            match code_points rest with
            | Some [b] => option_map (Z.add 20) (decimal_digit b)
            | _ => None
            end
        | Some 3 =>
            match rest with
            | String b EmptyString =>
                match digit b with
                | Some d => if d <=? 1 then Some (30 + d) else None
                | None => None
                end
            | _ => None
            end
        | _ => None
        end
  | _ => None
  end.

(** The directive [%y]: [\d\d]; 00..68 are 2000..2068, 69..99 are
    1969..1999. *)
Definition directive_y (s : string) : option Z :=
  match code_points s with
  | Some [a; b] =>
      match decimal_digit a, decimal_digit b with
      | Some p, Some q =>
          let y := 10 * p + q in
          Some (if y <=? 68 then 2000 + y else 1900 + y)
      | _, _ => None
      end
  | _ => None
  end.

(** [datetime.strptime(s, "%m/%d/%y")]: the three directives between
    two slashes, then [datetime(y, m, d)]; [None] stands for the
    [ValueError] the caller catches. *)
Definition strptime_mdy (s : string) : option Z :=
  match split_on "/" s with
  | [sm; sd; sy] =>
      match directive_m sm, directive_d sd, directive_y sy with
      | Some m, Some d, Some y => make_date y m d
      | _, _, _ => None
      end
  | _ => None
  end.

End Calendar.

(* ================================================================= *)
(** * pandas: frames, slices and reductions *)

Module Pandas.

(** One observation: the seven columns every frame of the dashboard has. *)
Record Row : Type := mkRow {
  Tanggal : Z;
  Kasus : Z;
  Kematian : Z;
  Sembuh : Z;
  Kasus_Baru : Z;
  Kematian_Baru : Z;
  Sembuh_Baru : Z
}.

(** A frame: rows in positional order, each with its index label. *)
Definition DataFrame : Type := list (Z * Row).

Definition labels (df : DataFrame) : list Z := map fst df.
Definition rows (df : DataFrame) : list Row := map snd df.

(** [column in df.columns], with the accessor of the column. *)
Definition column_of (name : string) : option (Row -> Z) :=
  if String.eqb name "Tanggal" then Some Tanggal
  else if String.eqb name "Kasus" then Some Kasus
  else if String.eqb name "Kematian" then Some Kematian
  else if String.eqb name "Sembuh" then Some Sembuh
  else if String.eqb name "Kasus_Baru" then Some Kasus_Baru
  else if String.eqb name "Kematian_Baru" then Some Kematian_Baru
  else if String.eqb name "Sembuh_Baru" then Some Sembuh_Baru
  else None.

(** The one column of the frame that is not a column of counts:
    ["Tanggal"] holds [datetime64] values, on which pandas defines no
    sum, no quotient and no rolling mean. *)
Definition is_datetime_column (name : string) : bool :=
  String.eqb name "Tanggal".

Definition count_column_of (name : string) : option (Row -> Z) :=
  if is_datetime_column name then None else column_of name.

(** [df[column]]: the values of a column, or [KeyError]. *)
Definition getitem (df : DataFrame) (column : string) : outcome (list Z) :=
  match column_of column with
  | Some f => Returned (map f (rows df))
  | None => Raised (KeyError column)
  end.

(** [reset_index(drop=True)] and the default index of a new frame. *)
Definition range_index (rs : list Row) : DataFrame :=
  combine (map Z.of_nat (seq 0 (length rs))) rs.

(** [head(n)] is [iloc[:n]]: a negative [n] drops the last [-n] rows. *)
Definition head {A : Type} (n : Z) (l : list A) : list A :=
  if 0 <=? n then firstn (Z.to_nat n) l
  else firstn (length l - Z.to_nat (- n)) l.

(** [tail(n)] is empty for [n = 0] and [iloc[-n:]] otherwise: a negative
    [n] drops the first [-n] rows. *)
Definition tail {A : Type} (n : Z) (l : list A) : list A :=
  if n =? 0 then []
  else if 0 <? n then skipn (length l - Z.to_nat n) l
  else skipn (Z.to_nat (- n)) l.

Definition series_sum (xs : list Z) : Z := fold_right Z.add 0 xs.

(** What an int64 holds after its arithmetic wrapped around. *)
Definition int64_wrap (z : Z) : Z := (z + 2 ^ 63) mod 2 ^ 64 - 2 ^ 63.

(** The magnitudes of the values sum to less than 2^53 and there are
    fewer than 2^53 values: every float64 sum over them is exact, in any
    order of additions, and so is the float of their number. *)
Definition sums_exactly (xs : list Z) : bool :=
  (series_sum (map Z.abs xs) <? 2 ^ 53) && (Z.of_nat (length xs) <? 2 ^ 53).

(** The float64 quotient of an exact sum by the number of values;
    [nan] for no value. *)
Definition exact_mean (xs : list Z) : float :=
  (Z2float (series_sum xs) / Z2float (Z.of_nat (length xs)))%float.

(** [Series.mean()] of a column of counts: pandas adds the float64
    values and divides by their number. *)
Definition mean `{NumPy} (xs : list Z) : float :=
  if sums_exactly xs then exact_mean xs else inexact_mean xs.

(** [Series.diff()] on an int64 column: each value minus the one before
    it, subtracted in int64 and converted to float64; NaN in the first
    position. *)
Fixpoint diff_from (prev : Z) (xs : list Z) : list float :=
  match xs with
  | [] => []
  | x :: rest => Z2float (int64_wrap (x - prev)) :: diff_from x rest
  end.

Definition diff (xs : list Z) : list float :=
  match xs with
  | [] => []
  | x :: rest => nan :: diff_from x rest
  end.

Definition fillna (v : float) (xs : list float) : list float :=
  map (fun x => if PrimFloat.is_nan x then v else x) xs.

Definition clip_lower (lo : float) (xs : list float) : list float :=
  map (clip_min lo) xs.

(** [sort_values(by)] as a stable insertion sort on the key (pandas does
    not promise the relative order of rows with equal keys; here they
    keep it). *)
Fixpoint insert_by {A : Type} (key : A -> Z) (x : A) (l : list A) : list A :=
  match l with
  | [] => [x]
  | y :: rest => if key x <? key y then x :: y :: rest
                 else y :: insert_by key x rest
  end.

Definition sort_values {A : Type} (key : A -> Z) (l : list A) : list A :=
  fold_left (fun acc x => insert_by key x acc) l [].

(** [Series.min()] and [Series.max()]: nothing for an empty series. *)
Definition series_min (xs : list Z) : option Z :=
  match xs with
  | [] => None
  | x :: rest => Some (fold_left Z.min rest x)
  end.

Definition series_max (xs : list Z) : option Z :=
  match xs with
  | [] => None
  | x :: rest => Some (fold_left Z.max rest x)
  end.

(** [Series.idxmax()]: the label of the first occurrence of the maximum. *)
Fixpoint idxmax_from (best : Z * Z) (s : list (Z * Z)) : Z * Z :=
  match s with
  | [] => best
  | (l, v) :: rest =>
      if snd best <? v then idxmax_from (l, v) rest else idxmax_from best rest
  end.

Definition idxmax (s : list (Z * Z)) : option Z :=
  match s with
  | [] => None
  | b :: rest => Some (fst (idxmax_from b rest))
  end.

(** [df.loc[label]] on a frame with unique labels. *)
Definition loc (df : DataFrame) (label : Z) : option Row :=
  option_map snd (find (fun p => fst p =? label) df).

End Pandas.

(* ================================================================= *)
(** * api_client.py *)

Module ApiClient.

Import Calendar Pandas.

(** A JSON object of counts by date string, keys in insertion order
    (they are distinct, as the keys of a Python dict are). *)
Definition JsonObject : Type := list (string * Z).

Fixpoint dict_get (d : JsonObject) (k : string) (default : Z) : Z :=
  match d with
  | [] => default
  | (k', v) :: rest => if String.eqb k k' then v else dict_get rest k default
  end.

Definition keys (d : JsonObject) : list string := map fst d.

(** [timeline.get(name, {})]. *)
Definition get_or_empty (o : option JsonObject) : JsonObject :=
  match o with
  | Some d => d
  | None => []
  end.

(** A member of the timeline other than ["cases"]: absent, an object of
    counts, or some other JSON value (null, a number, a string, a
    list). *)
Inductive Member : Type :=
| Absent
| Object (d : JsonObject)
| NotAnObject.

(** [timeline.get(name, {}).get(date_str, 0)]; [None] stands for the
    [AttributeError] of a member that has no [get]. *)
Definition member_get (m : Member) (k : string) : option Z :=
  match m with
  | Absent => Some 0
  | Object d => Some (dict_get d k 0)
  | NotAnObject => None
  end.

(** A timeline that is a JSON object and whose ["cases"], if present, is
    an object of counts. *)
Record Timeline : Type := mkTimeline {
  tl_cases : option JsonObject;
  tl_deaths : Member;
  tl_recovered : Member
}.

(** What [fetch_indonesia_historical()] hands over: [None], or the JSON
    object its annotation promises: without ["timeline"], with a
    ["timeline"] that is not an object or holds a ["cases"] that is not
    an object, or with a timeline as above. The counts are JSON
    integers. *)
Inductive Response : Type :=
| FetchFailed
| NoTimeline
| MalformedTimeline
| WithTimeline (t : Timeline).

(** A parsed row, before the daily columns exist. *)
Record RawRow : Type := mkRawRow {
  raw_Tanggal : Z;
  raw_Kasus : Z;
  raw_Kematian : Z;
  raw_Sembuh : Z
}.

(** Lines 105-123: one row per key of ["cases"]; a key whose date does
    not parse is skipped, and so is every key when ["deaths"] or
    ["recovered"] has no [get] (the [except] clause catches both). *)
Definition parse_timeline (t : Timeline) : list RawRow :=
  let dates := keys (get_or_empty (tl_cases t)) in
  flat_map
    (fun date_str =>
       match strptime_mdy date_str with
       | Some dt =>
           let cases := dict_get (get_or_empty (tl_cases t)) date_str 0 in
           match member_get (tl_deaths t) date_str,
                 member_get (tl_recovered t) date_str with
           | Some deaths, Some recovered =>
               [ mkRawRow dt cases deaths recovered ]
           | _, _ => []
           end
       | None => []
       end)
    dates.

(** [s.diff().fillna(0).clip(lower=0).astype(int)] on an int64 column of
    counts: the differences are float64 values, and so are the results of
    [fillna] and [clip]; the cast brings them back to int64. *)
Definition daily (xs : list Z) : list Z :=
  map astype_int64 (clip_lower 0 (fillna 0 (diff xs))).

Fixpoint with_daily (rs : list RawRow) (kb mb sb : list Z) : list Row :=
  match rs, kb, mb, sb with
  | r :: rs', k :: kb', m :: mb', s :: sb' =>
      mkRow (raw_Tanggal r) (raw_Kasus r) (raw_Kematian r) (raw_Sembuh r) k m s
      :: with_daily rs' kb' mb' sb'
  | _, _, _, _ => []
  end.

(** Lines 128-136: sort by date, renumber, derive the daily columns. The
    three columns of counts are int64 columns, as pandas makes them when
    every count fits. *)
Definition build_frame (rs : list RawRow) : DataFrame :=
  let sorted := sort_values raw_Tanggal rs in
  range_index
    (with_daily sorted
       (daily (map raw_Kasus sorted))
       (daily (map raw_Kematian sorted))
       (daily (map raw_Sembuh sorted))).

Fixpoint cumsum_from (acc : Z) (xs : list Z) : list Z :=
  match xs with
  | [] => []
  | x :: rest => (acc + x) :: cumsum_from (acc + x) rest
  end.

Definition cumsum (xs : list Z) : list Z := cumsum_from 0 xs.

Fixpoint sample_rows (dates cum dth rec new : list Z) : list Row :=
  match dates, cum, dth, rec, new with
  | t :: dates', c :: cum', d :: dth', r :: rec', n :: new' =>
      mkRow t c d r n
        (astype_int (Z2float n * 0.025)%float)
        (astype_int (Z2float n * 0.85)%float)
      :: sample_rows dates' cum' dth' rec' new'
  | _, _, _, _, _ => []
  end.

(** [_get_sample_historical_df()]: reseeds the global generator with 42,
    draws 365 normal deviates and builds the synthetic year. *)
Definition _get_sample_historical_df `{NumPy} (g : RandomState)
  : DataFrame * RandomState :=
  let start := ymd2ord 2020 3 1 in
  let dates := map (fun i => start + Z.of_nat i) (seq 0 365) in
  let g1 := np_random_seed 42 in
  let days := map Z.of_nat (seq 0 365) in
  let base_curve :=
    map (fun d => (100 * np_exp (Z2float (- ((d - 150) ^ 2)) / 5000))%float) days in
  let '(noise, g2) := np_random_normal 0 10 365 g1 in
  let daily_cases :=
    map (fun bn => astype_int (clip_min 1 (fst bn + snd bn)%float))
        (combine base_curve noise) in
  let cumulative_cases := cumsum daily_cases in
  let cumulative_deaths :=
    map (fun c => astype_int (Z2float c * 0.025)%float) cumulative_cases in
  let cumulative_recovered :=
    map (fun c => astype_int (Z2float c * 0.85)%float) cumulative_cases in
  (range_index
     (sample_rows dates cumulative_cases cumulative_deaths
        cumulative_recovered daily_cases),
   g2).

(** [get_historical_df()], given the fetched payload and the state of the
    global generator at the time of the call. *)
Definition get_historical_df `{NumPy} (g : RandomState) (data : Response)
  : outcome DataFrame * RandomState :=
  match data with
  | FetchFailed | NoTimeline =>
      let '(df, g') := _get_sample_historical_df g in (Returned df, g')
  | MalformedTimeline => (Raised AttributeError, g)
  | WithTimeline timeline =>
      match parse_timeline timeline with
      | [] => let '(df, g') := _get_sample_historical_df g in (Returned df, g')
      | rs => (Returned (build_frame rs), g)
      end
  end.

End ApiClient.

(* ================================================================= *)
(** * utils.py *)

Module Utils.

Import Pandas.

Definition calculate_cfr (deaths cases : Z) : outcome float :=
  if cases =? 0 then Returned 0%float
  else q <- int_truediv deaths cases ;; Returned (q * 100)%float.

Definition calculate_recovery_rate (recovered cases : Z) : outcome float :=
  if cases =? 0 then Returned 0%float
  else q <- int_truediv recovered cases ;; Returned (q * 100)%float.

Definition calculate_active_rate (active cases : Z) : outcome float :=
  if cases =? 0 then Returned 0%float
  else q <- int_truediv active cases ;; Returned (q * 100)%float.

(** The rows a trailing window of size [window] sees at position [i]:
    positions [max(0, i + 1 - window)] to [i], both included. *)
Definition window_at (window : Z) (xs : list Z) (i : nat) : list Z :=
  let start := (i + 1 - Z.to_nat window)%nat in
  firstn (i + 1 - start) (skipn start xs).

(** [Series.rolling(window, min_periods)]: pandas validates the two
    arguments when the window object is made (its messages also quote
    the two numbers). *)
Definition rolling_validate (window min_periods : Z) : outcome unit :=
  if min_periods <? 0 then Raised (ValueError "min_periods must be >= 0")
  else if window <? min_periods
  then Raised (ValueError "min_periods must be <= window")
  else if window <? 0
  then Raised (ValueError "window must be an integer 0 or greater")
  else Returned tt.

(** [Series.rolling(window, min_periods).mean()] on a column of counts:
    at each position the mean of the window when it holds at least
    [min_periods] values and NaN ([None]) otherwise. pandas keeps a
    running float64 sum of the window; it is the sum of the window's
    values whenever the sums over the column are exact. The window
    bounds are int64 values: this is [mean()] for a window that fits. *)
Definition rolling_mean `{NumPy} (window min_periods : Z) (xs : list Z)
  : outcome (list (option float)) :=
  _ <- rolling_validate window min_periods ;;
  Returned
    (map (fun i =>
            let w := window_at window xs i in
            let nobs := Z.of_nat (length w) in
            if (min_periods <=? nobs) && (0 <? nobs)
            then Some (if sums_exactly xs then exact_mean w
                       else inexact_rolling_mean window xs i)
            else None)
         (seq 0 (length xs))).

(** On the [datetime64] column the window object is made, and [mean()]
    then refuses the values. *)
Definition calculate_rolling_average `{NumPy} (df : DataFrame)
  (column : string) (window : Z) : outcome (list (option float)) :=
  s <- getitem df column ;;
  if is_datetime_column column
  then _ <- rolling_validate window 1 ;; Raised DataError
  else rolling_mean window 1 s.

Definition calculate_r0_estimate `{NumPy} (df : DataFrame) (generation_time : Z)
  : outcome float :=
  if Z.of_nat (length df) <? generation_time * 2 then Returned 1%float
  else
    let recent := tail (generation_time * 2) df in
    cur <- getitem (tail generation_time recent) "Kasus_Baru" ;;
    let current_avg := mean cur in
    prev <- getitem (head generation_time recent) "Kasus_Baru" ;;
    let previous_avg := mean prev in
    if (previous_avg <=? 0)%float then Returned 1%float
    else
      let ratio := (current_avg / previous_avg)%float in
      e <- int_truediv generation_time generation_time ;;
      let r0 := float_pow ratio e in
      Returned (py_max 0.1 (py_min 10 r0)).

(** [df.iloc[0]] and [df.iloc[-1]]. *)
Definition iloc_first (df : DataFrame) : outcome Row :=
  match df with
  | [] => Raised IndexError
  | p :: _ => Returned (snd p)
  end.

Definition iloc_last (df : DataFrame) : outcome Row :=
  match rev df with
  | [] => Raised IndexError
  | p :: _ => Returned (snd p)
  end.

Definition calculate_doubling_time `{NumPy} (df : DataFrame)
  : outcome (option float) :=
  if Z.of_nat (length df) <? 14 then Returned None
  else
    let recent := tail 14 df in
    first <- iloc_first recent ;;
    last <- iloc_last recent ;;
    let start_cases := Kasus first in
    let end_cases := Kasus last in
    if (start_cases <=? 0) || (end_cases <=? start_cases) then Returned None
    else
      (* the two counts come out of the frame as NumPy integers: the
         quotient is that of their float64 values *)
      e <- int_truediv 1 14 ;;
      let growth_rate :=
        (float_pow (Z2float end_cases / Z2float start_cases) e - 1)%float in
      if (growth_rate <=? 0)%float then Returned None
      else Returned (Some (np_log 2 / np_log (1 + growth_rate))%float).

Definition calculate_herd_immunity_threshold (r0 : float) : outcome float :=
  if (r0 <=? 1)%float then Returned 0%float
  else q <- float_truediv 1 r0 ;; Returned ((1 - q) * 100)%float.

(** On the [datetime64] column the two means are timestamps, or [NaT]
    for no row: a timestamp is not equal to 0, the difference of two
    timestamps is a timedelta, and dividing it by a timestamp raises
    [TypeError]; with [NaT] the quotient is NaN, which passes neither
    threshold. *)
Definition get_trend_direction `{NumPy} (df : DataFrame) (column : string)
  (days : Z) : outcome string :=
  if Z.of_nat (length df) <? days * 2 then Returned "stabil"%string
  else
    let recent := tail (days * 2) df in
    fst_vals <- getitem (head days recent) column ;;
    snd_vals <- getitem (tail days recent) column ;;
    if is_datetime_column column
    then match fst_vals with
         | [] => Returned "stabil"%string
         | _ :: _ => Raised TypeError
         end
    else
      let first_half := mean fst_vals in
      let second_half := mean snd_vals in
      if (first_half =? 0)%float then Returned "stabil"%string
      else
        let change := ((second_half - first_half) / first_half)%float in
        if (0.1 <? change)%float then Returned "naik"%string
        else if (change <? -0.1)%float then Returned "turun"%string
        else Returned "stabil"%string.

(** [result[result[date_column] >= pd.Timestamp(bound)]] and its mirror:
    boolean masks keep order and labels. *)
Definition filter_by_date_range (df : DataFrame)
  (start_date end_date : option Z) (date_column : string)
  : outcome DataFrame :=
  match df with
  | [] => Returned df
  | _ =>
      let result := df in
      result <-
        match start_date with
        | Some s =>
            match column_of date_column with
            | Some f => Returned (filter (fun p => s <=? f (snd p)) result)
            | None => Raised (KeyError date_column)
            end
        | None => Returned result
        end ;;
      match end_date with
      | Some e =>
          match column_of date_column with
          | Some f => Returned (filter (fun p => f (snd p) <=? e) result)
          | None => Raised (KeyError date_column)
          end
      | None => Returned result
      end
  end.

(** The dict [{"date": ..., "value": ...}]. *)
Record PeakInfo : Type := mkPeak {
  peak_date : option Z;
  peak_value : Z
}.

Definition get_peak_info (df : DataFrame) (column date_column : string)
  : outcome PeakInfo :=
  match df, column_of column with
  | [], _ | _, None => Returned (mkPeak None 0)
  | _, Some f =>
      match idxmax (combine (labels df) (map f (rows df))) with
      | None => Raised (ValueError "attempt to get argmax of an empty sequence")
      | Some idx =>
          match loc df idx with
          | None => Raised (KeyError "idx")
          | Some peak_row =>
              Returned
                (mkPeak
                   match column_of date_column with
                   | Some d => Some (d peak_row)
                   | None => None
                   end
                   (f peak_row))
          end
      end
  end.

End Utils.

From Stdlib Require Decimal DecimalString DecimalZ.

(* ================================================================= *)
(** * utils.py: display helpers *)

(** The format specification [f"{num:,.{decimals}f}"] with a positive
    number of decimals: Python's decimal rendering of a float, an
    interface. *)
Class FormatSpec : Type := {
  format_comma_f : float -> Z -> string
}.

Module UtilsDisplay.

(** What [format_number] is given: an [int] or a [float]. *)
Inductive number : Type :=
| PyInt (z : Z)
| PyFloat (f : float).

(** What [format_number] gives: a text, or the exception it raises
    (the [OverflowError] of [int(num)] on an infinite float). *)
Inductive formatted : Type :=
| Text (s : string)
| Failed (e : exn).

(** [pd.isna(num)] on a scalar. *)
Definition isna (num : number) : bool :=
  match num with
  | PyInt _ => false
  | PyFloat f => PrimFloat.is_nan f
  end.

(** [float(num)]. *)
Definition to_float (num : number) : float :=
  match num with
  | PyInt z => Z2float z
  | PyFloat f => f
  end.

(** [int(num)] on a number that is not NaN: truncation toward zero,
    [None] for the [OverflowError] of an infinity. *)
Definition py_int (num : number) : option Z :=
  match num with
  | PyInt z => Some z
  | PyFloat f => if PrimFloat.is_infinity f then None else Some (astype_int f)
  end.

(** The decimal digits of [abs(z)], most significant first. *)
Definition decimal_digits (z : Z) : list ascii :=
  list_ascii_of_string
    match BinInt.Z.to_int z with
    | Decimal.Pos u | Decimal.Neg u => DecimalString.NilEmpty.string_of_uint u
    end.

(** Grouping by thousands over the digits taken least significant first:
    a comma before every fourth digit; [k] digits are already in the
    open group. *)
Fixpoint group_thousands (ds : list ascii) (k : nat) : list ascii :=
  match ds with
  | [] => []
  | d :: rest =>
      if (k =? 3)%nat then ","%char :: d :: group_thousands rest 1
      else d :: group_thousands rest (S k)
  end.

(** [f"{z:,}"] for an [int]. *)
Definition format_comma_d (z : Z) : list ascii :=
  (if z <? 0 then ["-"%char] else [])
  ++ rev (group_thousands (rev (decimal_digits z)) 0).

(** [s.replace(",", ".")]. *)
Definition replace_comma (s : list ascii) : list ascii :=
  map (fun c => if Ascii.eqb c "," then "."%char else c) s.

Definition format_number `{FormatSpec} (num : number) (decimals : Z)
  : formatted :=
  if isna num then Text "-"
  else if 0 <? decimals
  then Text (string_of_list_ascii
               (replace_comma
                  (list_ascii_of_string
                     (format_comma_f (to_float num) decimals))))
  else match py_int num with
       | None => Failed OverflowError
       | Some z =>
           Text (string_of_list_ascii (replace_comma (format_comma_d z)))
       end.

(** [get_trend_icon]: a lookup with the icon of "stabil" as default. *)
Definition get_trend_icon (direction : string) : string :=
  if String.eqb direction "naik" then "📈"%string
  else if String.eqb direction "turun" then "📉"%string
  else if String.eqb direction "stabil" then "➡️"%string
  else "➡️"%string.

(** [str(z)] for an [int]. *)
Definition py_str (z : Z) : string :=
  DecimalString.NilEmpty.string_of_int (BinInt.Z.to_int z).

(** [BULAN_ID], in the order the dict is written. *)
Definition BULAN_ID : list (Z * string) :=
  [ (1, "Januari"); (2, "Februari"); (3, "Maret"); (4, "April");
    (5, "Mei"); (6, "Juni"); (7, "Juli"); (8, "Agustus");
    (9, "September"); (10, "Oktober"); (11, "November");
    (12, "Desember") ]%string.

(** [d.get(key)] on a dict with [int] keys. *)
Fixpoint int_keyed_get (d : list (Z * string)) (key : Z) : option string :=
  match d with
  | [] => None
  | (k, v) :: rest => if key =? k then Some v else int_keyed_get rest key
  end.

(** [get_bulan_indonesia]: the name from the table, else [str(month)]. *)
Definition get_bulan_indonesia (month : Z) : string :=
  match int_keyed_get BULAN_ID month with
  | Some name => name
  | None => py_str month
  end.

End UtilsDisplay.

(* ================================================================= *)
(** * utils.py: descriptive statistics *)

(** The pandas reductions whose binary64 result depends on the order of
    the floating-point sums inside pandas: an interface. *)
Class PandasReductions : Type := {
  series_std : list Z -> float;
  series_median : list Z -> float;
  series_quantile : float -> list Z -> float
}.

Module UtilsStatistics.

Import Pandas.

(** The non-empty dict [calculate_statistics] returns. *)
Record Statistics : Type := mkStatistics {
  stat_count : Z;
  stat_mean : float;
  stat_std : float;
  stat_min : Z;
  stat_max : Z;
  stat_median : float;
  stat_q1 : float;
  stat_q3 : float;
  stat_sum : Z
}.

(** [calculate_statistics]: [None] is the empty dict. A column of counts
    has no missing value, so [dropna()] keeps every value; its [sum()] is
    an int64 sum. On the [datetime64] column [sum()] raises. *)
Definition calculate_statistics `{NumPy} `{PandasReductions} (df : DataFrame)
  (column : string) : outcome (option Statistics) :=
  match df, column_of column with
  | [], _ | _, None => Returned None
  | _, Some f =>
      let series := map f (rows df) in
      match series with
      | [] => Returned None
      | x :: rest =>
          if is_datetime_column column then Raised TypeError
          else
            Returned
              (Some
                 (mkStatistics
                    (Z.of_nat (length series))
                    (mean series)
                    (series_std series)
                    (fold_left Z.min rest x)
                    (fold_left Z.max rest x)
                    (series_median series)
                    (series_quantile 0.25 series)
                    (series_quantile 0.75 series)
                    (int64_wrap (series_sum series))))
      end
  end.

End UtilsStatistics.

(* ================================================================= *)
(** * api_client.py: current totals *)

(** The wall clock and the local time zone behind [datetime.now()] and
    [datetime.fromtimestamp(seconds)], both rendered by [isoformat()]:
    an interface. [fromtimestamp] rejects a timestamp outside the range
    of the platform (OverflowError, OSError or ValueError): [None]. *)
Class Clock : Type := {
  now_isoformat : string;
  fromtimestamp_isoformat : float -> option string
}.

Module ApiClientStats.

Import ApiClient.

(** The dict [get_current_stats] returns, by key. *)
Record CurrentStats : Type := mkCurrentStats {
  st_cases : Z;
  st_deaths : Z;
  st_recovered : Z;
  st_active : Z;
  st_critical : Z;
  st_cases_per_million : Z;
  st_deaths_per_million : Z;
  st_tests : Z;
  st_population : Z;
  st_updated : option string;
  st_is_fallback : bool
}.

(** What a call of [get_current_stats] ends in: the dict, or the error
    raised while ["updated"] is converted to a date. *)
Inductive stats_result : Type :=
| Stats (stats : CurrentStats)
| UpdatedError.

(** [get_current_stats()], given what [fetch_indonesia_current()]
    produced: [None] or the payload. The values of the dict are
    evaluated in the order they are written; only ["updated"] can
    raise. *)
Definition get_current_stats `{Clock} (data : option JsonObject)
  : stats_result :=
  match data with
  | None =>
      Stats
        (mkCurrentStats 6829221 162063 6647104 20054 0 24466 581
           114158919 279134505 (Some now_isoformat) true)
  | Some data =>
      let fields := fun updated =>
        mkCurrentStats
          (dict_get data "cases" 0)
          (dict_get data "deaths" 0)
          (dict_get data "recovered" 0)
          (dict_get data "active" 0)
          (dict_get data "critical" 0)
          (dict_get data "casesPerOneMillion" 0)
          (dict_get data "deathsPerOneMillion" 0)
          (dict_get data "tests" 0)
          (dict_get data "population" 0)
          updated
          false in
      if dict_get data "updated" 0 =? 0 then Stats (fields None)
      else match int_truediv (dict_get data "updated" 0) 1000 with
           | Raised _ => UpdatedError
           | Returned seconds =>
               match fromtimestamp_isoformat seconds with
               | None => UpdatedError
               | Some text => Stats (fields (Some text))
               end
           end
  end.

End ApiClientStats.

(* ================================================================= *)
(** * api_client.py: the synthetic vaccination series *)

Module ApiClientVaccine.

Import Calendar ApiClient.

(** One row of the vaccination frame. *)
Record VaccineRow : Type := mkVaccineRow {
  vac_Tanggal : Z;
  Total_Vaksin : Z;
  Dosis_Harian : Z
}.

Definition VaccineFrame : Type := list (Z * VaccineRow).

(** [np.diff(a, prepend=0)]: the first difference is taken against 0. *)
Fixpoint np_diff_from (prev : float) (xs : list float) : list float :=
  match xs with
  | [] => []
  | x :: rest => (x - prev)%float :: np_diff_from x rest
  end.

Fixpoint vaccine_rows (dates total daily : list Z) : list VaccineRow :=
  match dates, total, daily with
  | t :: dates', c :: total', d :: daily' =>
      mkVaccineRow t c d :: vaccine_rows dates' total' daily'
  | _, _, _ => []
  end.

(** [_get_sample_vaccine_df()]: reseeds the global generator with 42 and
    builds two years of daily doses around a sigmoid. *)
Definition _get_sample_vaccine_df `{NumPy} (g : RandomState)
  : VaccineFrame * RandomState :=
  let start := ymd2ord 2021 1 13 in
  let dates := map (fun i => start + Z.of_nat i) (seq 0 730) in
  let g1 := np_random_seed 42 in
  let days := map Z.of_nat (seq 0 730) in
  let max_vaccinated := 200000000 in
  let cumulative :=
    map (fun d => (Z2float max_vaccinated
                   / (1 + np_exp (-0.015 * Z2float (d - 300))))%float) days in
  let '(noise, g2) := np_random_normal 0 10000 730 g1 in
  let daily :=
    map (fun dn => astype_int (clip_min 0 (fst dn + snd dn)%float))
        (combine (np_diff_from 0 cumulative) noise) in
  let cumulative := cumsum daily in
  let rs := vaccine_rows dates cumulative daily in
  (combine (map Z.of_nat (seq 0 (length rs))) rs, g2).

End ApiClientVaccine.

(* ================================================================= *)
(** * An instance of the numeric interface *)

(** The interface is inhabited: a generator that walks a fixed cycle of
    deviates, and simple stand-ins for [exp], [log] and [pow]. It serves
    to run the definitions on concrete inputs; every theorem is stated
    for an arbitrary instance. *)
Definition numpy_stub : NumPy.
Proof.
  refine {|
    RandomState := Z;
    np_random_seed := fun s => s;
    np_random_normal := fun loc scale n g =>
      (map (fun i => (loc + scale * (Z2float ((g + 7 * Z.of_nat i) mod 21 - 10) / 5))%float)
           (seq 0 n),
       g + Z.of_nat n);
    np_exp := fun x => (1 / (1 + x * x))%float;
    np_log := fun x => (x - 1)%float;
    float_pow := fun x _ => x;
    inexact_mean := fun _ => 0%float;
    inexact_rolling_mean := fun _ _ _ => 0%float
  |}.
  - intros. cbn. rewrite length_map, length_seq. reflexivity.
  - reflexivity.
Defined.

(** The same interface with the values glibc's [pow] and [log] return
    at the arguments that exact doubling over 14 rows reaches:
    [2.0 ** (1/14)], [log(2.0)] and [log(1.0507566386532194)]. *)
Definition numpy_libm : NumPy.
Proof.
  refine {|
    RandomState := @RandomState numpy_stub;
    np_random_seed := @np_random_seed numpy_stub;
    np_random_normal := @np_random_normal numpy_stub;
    np_random_normal_size := @np_random_normal_size numpy_stub;
    np_exp := @np_exp numpy_stub;
    np_log := fun x =>
      if (x =? 2)%float then 0.6931471805599453%float
      else if (x =? 1.0507566386532194)%float then 0.04951051289713897%float
      else (x - 1)%float;
    float_pow := fun x y =>
      if (y =? 1)%float then x
      else if (x =? 2)%float && (y =? 0.07142857142857142)%float
           then 1.0507566386532194%float
           else x;
    inexact_mean := fun _ => 0%float;
    inexact_rolling_mean := fun _ _ _ => 0%float
  |}.
  intros x. reflexivity.
Defined.

Import Calendar Pandas ApiClient Utils.

(* ================================================================= *)
(** * Auxiliary definitions for the statements and their proofs *)

(** The differences of a column that follows the value [prev], each
    clamped at 0. *)
Fixpoint clamped_from (prev : Z) (xs : list Z) : list Z :=
  match xs with
  | [] => []
  | x :: rest => Z.max 0 (x - prev) :: clamped_from x rest
  end.

Definition rows_from (p : RawRow) (rs : list RawRow) : list Row :=
  with_daily rs
    (clamped_from (raw_Kasus p) (map raw_Kasus rs))
    (clamped_from (raw_Kematian p) (map raw_Kematian rs))
    (clamped_from (raw_Sembuh p) (map raw_Sembuh rs)).

(** The three counts of a parsed row lie in [0, 2^53): float64 holds
    them, and their differences, exactly. *)
Definition counts_exact (r : RawRow) : bool :=
  (0 <=? raw_Kasus r) && (raw_Kasus r <? 2 ^ 53)
  && (0 <=? raw_Kematian r) && (raw_Kematian r <? 2 ^ 53)
  && (0 <=? raw_Sembuh r) && (raw_Sembuh r <? 2 ^ 53).

(** The three counts of a parsed row fit an int64. *)
Definition counts_fit_int64 (r : RawRow) : bool :=
  (- 2 ^ 63 <=? raw_Kasus r) && (raw_Kasus r <? 2 ^ 63)
  && (- 2 ^ 63 <=? raw_Kematian r) && (raw_Kematian r <? 2 ^ 63)
  && (- 2 ^ 63 <=? raw_Sembuh r) && (raw_Sembuh r <? 2 ^ 63).

Definition to_raw (r : Row) : RawRow :=
  mkRawRow (Tanggal r) (Kasus r) (Kematian r) (Sembuh r).

Definition first_row (p : RawRow) : Row :=
  mkRow (raw_Tanggal p) (raw_Kasus p) (raw_Kematian p) (raw_Sembuh p) 0 0 0.

Definition next_row (p r : RawRow) : Row :=
  mkRow (raw_Tanggal r) (raw_Kasus r) (raw_Kematian r) (raw_Sembuh r)
    (Z.max 0 (raw_Kasus r - raw_Kasus p))
    (Z.max 0 (raw_Kematian r - raw_Kematian p))
    (Z.max 0 (raw_Sembuh r - raw_Sembuh p)).

(** The date [d] lies in the inclusive range; a missing bound is no bound. *)
Definition in_date_range (start_date end_date : option Z) (d : Z) : bool :=
  match start_date with Some s => s <=? d | None => true end
  && match end_date with Some e => d <=? e | None => true end.

(** A row as [idxmax] sees it: its label and its value in the column. *)
Definition labelled_value (f : Row -> Z) (p : Z * Row) : Z * Z :=
  (fst p, f (snd p)).

(** The growth rate the code computes from the two ends of the window. *)
Definition growth_rate_of `{NumPy} (start_cases end_cases : Z) : float :=
  (float_pow (Z2float end_cases / Z2float start_cases)
             (Z2float 1 / Z2float 14) - 1)%float.

(* ================================================================= *)
(** * Concrete inputs *)

(** A payload whose dates arrive out of order, one of them unparsable. *)
Definition timeline_small : Timeline :=
  mkTimeline
    (Some [("1/23/20", 5); ("1/22/20", 2); ("bad", 9); ("1/24/20", 4);
           ("1/25/20", 10)]%string)
    (Object [("1/22/20", 0); ("1/23/20", 1)]%string)
    Absent.

(** A payload in which no date has the expected format. *)
Definition timeline_unparsable : Timeline :=
  mkTimeline (Some [("2020-01-22", 5); ("13/45/20", 7)]%string) Absent Absent.

(** Two days, the count of the second just above 2^53. *)
Definition timeline_above_2_53 : Timeline :=
  mkTimeline
    (Some [("1/22/20", 0); ("1/23/20", 9007199254740993)]%string)
    Absent Absent.

(** Four rows in which the maximum of Kasus_Baru occurs twice. *)
Definition frame_two_peaks : DataFrame :=
  [ (0, mkRow 737446 10 0 0 10 0 0);
    (1, mkRow 737447 70 0 0 60 0 0);
    (2, mkRow 737448 90 0 0 20 0 0);
    (3, mkRow 737449 150 0 0 60 0 0) ].

(** Three rows, fewer than a window of 7. *)
Definition frame_three_rows : DataFrame :=
  [ (0, mkRow 737446 10 0 0 10 0 0);
    (1, mkRow 737447 30 0 0 20 0 0);
    (2, mkRow 737448 90 0 0 60 0 0) ].

(** Six rows whose new cases average 10 over the first three days and
    12 over the last three. *)
Definition frame_six_rows : DataFrame :=
  [ (0, mkRow 737446 20 0 0 20 0 0);
    (1, mkRow 737447 28 0 0 8 0 0);
    (2, mkRow 737448 30 0 0 2 0 0);
    (3, mkRow 737449 35 0 0 5 0 0);
    (4, mkRow 737450 45 0 0 10 0 0);
    (5, mkRow 737451 66 0 0 21 0 0) ].

(** Fourteen rows whose cumulative cases go from 1000 to 2000. *)
Definition frame_doubling : DataFrame :=
  map (fun p : nat * Z =>
         (Z.of_nat (fst p),
          mkRow (737446 + Z.of_nat (fst p)) (snd p) 0 0 0 0 0))
      (combine (seq 0 14)
               [1000; 1050; 1100; 1160; 1220; 1280; 1350; 1420; 1490; 1570;
                1650; 1740; 1860; 2000]).

(** Ten rows: five days of 10 new cases, then five days of 25. *)
Definition frame_ten_rows : DataFrame :=
  map (fun i => (Z.of_nat i,
                 mkRow (737446 + Z.of_nat i) 0 0 0
                       (if Nat.ltb i 5 then 10 else 25) 0 0))
      (seq 0 10).

Import UtilsDisplay UtilsStatistics ApiClientStats ApiClientVaccine.

(** The later of two optional start dates and the earlier of two optional
    end dates; a missing bound is neutral. *)
Definition later_start (a b : option Z) : option Z :=
  match a, b with
  | Some x, Some y => Some (Z.max x y)
  | Some x, None => Some x
  | None, _ => b
  end.

Definition earlier_end (a b : option Z) : option Z :=
  match a, b with
  | Some x, Some y => Some (Z.min x y)
  | Some x, None => Some x
  | None, _ => b
  end.

(** Reading a text back as an integer after dropping its dots. *)
Definition drop_dots (s : string) : string :=
  string_of_list_ascii
    (filter (fun c => negb (Ascii.eqb c ".")) (list_ascii_of_string s)).

Definition read_int (s : string) : option Z :=
  option_map BinInt.Z.of_int (DecimalString.NilEmpty.int_of_string s).

Definition is_digit (c : ascii) : bool :=
  let n := nat_of_ascii c in (48 <=? n)%nat && (n <=? 57)%nat.

(** Instances of the display interfaces, to run the definitions. *)
Definition format_spec_stub : FormatSpec :=
  {| format_comma_f := fun _ _ => "0.00"%string |}.

Definition clock_stub : Clock :=
  {| now_isoformat := "2024-01-01T00:00:00"%string;
     fromtimestamp_isoformat := fun _ => Some "2023-06-01T00:00:00"%string |}.

(** A binary64 value that is neither NaN nor an infinity. *)
Definition finite_float (x : float) : bool :=
  match Prim2SF x with
  | S754_nan | S754_infinity _ => false
  | _ => true
  end.

(** The noisy curve of [_get_sample_historical_df], before it is clipped
    and cast: [base_curve + noise]. *)
Definition sample_curve `{NumPy} : list float :=
  let days := map Z.of_nat (seq 0 365) in
  let base_curve :=
    map (fun d => (100 * np_exp (Z2float (- ((d - 150) ^ 2)) / 5000))%float) days in
  map (fun bn => (fst bn + snd bn)%float)
      (combine base_curve
         (fst (np_random_normal 0 10 365 (np_random_seed 42)))).

(** The noisy daily doses of [_get_sample_vaccine_df], before they are
    clipped and cast. *)
Definition vaccine_curve `{NumPy} : list float :=
  let days := map Z.of_nat (seq 0 730) in
  let cumulative :=
    map (fun d => (Z2float 200000000
                   / (1 + np_exp (-0.015 * Z2float (d - 300))))%float) days in
  map (fun dn => (fst dn + snd dn)%float)
      (combine (np_diff_from 0 cumulative)
         (fst (np_random_normal 0 10000 730 (np_random_seed 42)))).

(* ================================================================= *)
(** * Facts about binary64 comparisons *)

Section FloatOrder.

Lemma SFcompare_antisym (x y : spec_float) :
  SFcompare y x = option_map CompOpp (SFcompare x y).
Proof.
  destruct x as [sx | sx | | sx mx ex], y as [sy | sy | | sy my ey];
    cbn; try reflexivity;
    try (destruct sx; reflexivity);
    try (destruct sy; reflexivity);
    try (destruct sx, sy; reflexivity).
  change (PosDef.Pos.compare_cont Eq my mx) with (Pos.compare my mx).
  change (PosDef.Pos.compare_cont Eq mx my) with (Pos.compare mx my).
  rewrite (Z.compare_antisym ex ey), (Pos.compare_antisym mx my).
  destruct sx, sy; cbn; try reflexivity;
    destruct (ex ?= ey); cbn; try reflexivity;
    destruct (mx ?= my)%positive; reflexivity.
Qed.

Lemma float_ltb_leb (a b : float) :
  (a <? b)%float = true -> (a <=? b)%float = true.
Proof.
  rewrite ltb_spec, leb_spec. unfold SFltb, SFleb.
  destruct (SFcompare (Prim2SF a) (Prim2SF b)) as [[ | | ] | ]; congruence.
Qed.

Lemma float_ltb_not_leb (a b : float) :
  (a <? b)%float = true -> (b <=? a)%float = false.
Proof.
  rewrite ltb_spec, leb_spec. unfold SFltb, SFleb.
  rewrite (SFcompare_antisym (Prim2SF a) (Prim2SF b)).
  destruct (SFcompare (Prim2SF a) (Prim2SF b)) as [[ | | ] | ]; cbn; congruence.
Qed.

Lemma float_ltb_asym (a b : float) :
  (a <? b)%float = true -> (b <? a)%float = false.
Proof.
  rewrite !ltb_spec. unfold SFltb.
  rewrite (SFcompare_antisym (Prim2SF a) (Prim2SF b)).
  destruct (SFcompare (Prim2SF a) (Prim2SF b)) as [[ | | ] | ]; cbn; congruence.
Qed.

(** Nothing above 1 is a zero. *)
Lemma float_not_leb_one_nonzero (x : float) :
  (x <=? 1)%float = false -> (x =? 0)%float = false.
Proof.
  rewrite leb_spec, eqb_spec. unfold SFleb, SFeqb.
  replace (Prim2SF 1) with (S754_finite false 4503599627370496 (-52))
    by reflexivity.
  replace (Prim2SF 0) with (S754_zero false) by reflexivity.
  destruct (Prim2SF x) as [s | s | | s m e].
  - unfold SFcompare. congruence.
  - unfold SFcompare. destruct s; congruence.
  - unfold SFcompare. congruence.
  - intros _. unfold SFcompare. destruct s; congruence.
Qed.

(** A value above 0.1 is not below -0.1. *)
Lemma float_above_tenth_not_below (c : float) :
  (0.1 <? c)%float = true -> (c <? -0.1)%float = false.
Proof.
  rewrite !ltb_spec. unfold SFltb.
  replace (Prim2SF 0.1) with (S754_finite false 7205759403792794 (-56))
    by reflexivity.
  replace (Prim2SF (-0.1)) with (S754_finite true 7205759403792794 (-56))
    by reflexivity.
  destruct (Prim2SF c) as [s | s | | s m e].
  - unfold SFcompare. congruence.
  - unfold SFcompare. destruct s; congruence.
  - unfold SFcompare. congruence.
  - destruct s.
    + unfold SFcompare. congruence.
    + intros _. unfold SFcompare. reflexivity.
Qed.

(** The clamp of [calculate_r0_estimate] lands in [0.1, 10]. *)
Lemma clamp_bounds (x : float) :
  (0.1 <=? py_max 0.1 (py_min 10 x))%float = true /\
  (py_max 0.1 (py_min 10 x) <=? 10)%float = true.
Proof.
  unfold py_max, py_min.
  destruct (x <? 10)%float eqn:Hhi.
  - destruct (0.1 <? x)%float eqn:Hlo.
    + split; apply float_ltb_leb; assumption.
    + split; reflexivity.
  - split; reflexivity.
Qed.

End FloatOrder.

(* ================================================================= *)
(** * Facts about the float of an integer and about division *)

Section FloatOfInt.

Lemma digits2_pos_lower (m : positive) :
  2 ^ (Zpos (digits2_pos m) - 1) <= Zpos m.
Proof.
  induction m as [p IH | p IH | ]; cbn [digits2_pos].
  - rewrite Pos2Z.inj_succ.
    replace (Z.succ (Zpos (digits2_pos p)) - 1)
      with (Z.succ (Zpos (digits2_pos p) - 1)) by lia.
    rewrite Z.pow_succ_r by lia. lia.
  - rewrite Pos2Z.inj_succ.
    replace (Z.succ (Zpos (digits2_pos p)) - 1)
      with (Z.succ (Zpos (digits2_pos p) - 1)) by lia.
    rewrite Z.pow_succ_r by lia. lia.
  - cbn. lia.
Qed.

Lemma digits2_pos_upper (m : positive) :
  Zpos m < 2 ^ Zpos (digits2_pos m).
Proof.
  induction m as [p IH | p IH | ]; cbn [digits2_pos].
  - rewrite Pos2Z.inj_succ, Z.pow_succ_r by lia. lia.
  - rewrite Pos2Z.inj_succ, Z.pow_succ_r by lia. lia.
  - cbn. lia.
Qed.

(** Shifting a mantissa left by [k] bits. *)
Lemma iter_xO_value (k m : positive) :
  Zpos (Pos.iter xO m k) = Zpos m * 2 ^ Zpos k.
Proof.
  revert m. induction k as [ | k IH] using Pos.peano_ind; intros m.
  - cbn. lia.
  - rewrite Pos.iter_succ, Pos2Z.inj_succ, Z.pow_succ_r by lia.
    rewrite Pos2Z.inj_xO, IH. lia.
Qed.

Lemma iter_xO_digits (k m : positive) :
  Zpos (digits2_pos (Pos.iter xO m k)) = Zpos (digits2_pos m) + Zpos k.
Proof.
  revert m. induction k as [ | k IH] using Pos.peano_ind; intros m.
  - cbn. lia.
  - rewrite Pos.iter_succ. cbn [digits2_pos].
    rewrite Pos2Z.inj_succ, IH. lia.
Qed.

(** A mantissa of exactly 53 bits with an exponent in the normal range is
    left as it is by the rounding of [binary_round_aux]. *)
Lemma binary_round_aux_canonical (s : bool) (m : positive) (e : Z) :
  Zpos (digits2_pos m) = 53 ->
  -1074 <= e <= 971 ->
  binary_round_aux prec emax s (Zpos m) e loc_Exact = S754_finite s m e.
Proof.
  intros Hd He.
  unfold binary_round_aux, shr_fexp, fexp, SpecFloat.emin.
  cbn [Zdigits2 shr_record_of_loc]. rewrite Hd.
  change prec with 53. change emax with 1024.
  replace (Z.max (53 + e - 53) (3 - 1024 - 53) - e) with 0 by lia.
  cbn [shr shr_m loc_of_shr_record round_nearest_even Zdigits2 shr_record_of_loc].
  rewrite Hd.
  replace (Z.max (53 + e - 53) (3 - 1024 - 53) - e) with 0 by lia.
  cbn [shr shr_m].
  destruct (Z.leb_spec e (1024 - 53)) as [_ | H]; [reflexivity | lia].
Qed.

(** [float(z)] for [0 < z < 2^53]: the mantissa is [z] shifted to 53
    bits. *)
Lemma binary_normalize_small (p : positive) :
  Zpos p < 2 ^ 53 ->
  exists (m : positive) (e : Z),
    binary_normalize prec emax (Zpos p) 0 false = S754_finite false m e /\
    binary_normalize prec emax (Zneg p) 0 false = S754_finite true m e /\
    valid_binary (S754_finite false m e) = true /\
    -52 <= e <= 0 /\
    Zpos m = Zpos p * 2 ^ (- e).
Proof.
  intros Hp.
  pose proof (digits2_pos_lower p) as Hlo.
  pose proof (digits2_pos_upper p) as Hup.
  assert (Hd : 1 <= Zpos (digits2_pos p) <= 53).
  { split; [lia | ].
    destruct (Z.le_gt_cases (Zpos (digits2_pos p)) 53) as [H | H]; [exact H | ].
    assert (2 ^ 53 <= 2 ^ (Zpos (digits2_pos p) - 1))
      by (apply Z.pow_le_mono_r; lia).
    lia. }
  cbn [binary_normalize]. unfold binary_round, shl_align, fexp, SpecFloat.emin.
  change prec with 53. change emax with 1024.
  replace (Z.max (Zpos (digits2_pos p) + 0 - 53) (3 - 1024 - 53) - 0)
    with (Zpos (digits2_pos p) - 53) by lia.
  replace (Z.max (Zpos (digits2_pos p) + 0 - 53) (3 - 1024 - 53))
    with (Zpos (digits2_pos p) - 53) by lia.
  destruct (Zpos (digits2_pos p) - 53) as [ | q | q] eqn:Hq; [ | lia | ].
  - exists p, 0.
    rewrite !(binary_round_aux_canonical _ p 0) by lia.
    split; [reflexivity | ]. split; [reflexivity | ].
    split.
    + unfold SpecFloat.valid_binary, bounded, canonical_mantissa, fexp, SpecFloat.emin.
      change prec with 53. change emax with 1024.
      apply andb_true_intro. split; [apply Z.eqb_eq | apply Z.leb_le]; lia.
    + split; [lia | ]. cbn. lia.
  - exists (Pos.iter xO p q), (Zneg q).
    pose proof (iter_xO_digits q p) as Hdig.
    pose proof (iter_xO_value q p) as Hval.
    assert (Hq' : Zpos q = 53 - Zpos (digits2_pos p)) by lia.
    rewrite !(binary_round_aux_canonical _ (Pos.iter xO p q) (Zneg q)) by lia.
    split; [reflexivity | ]. split; [reflexivity | ].
    split.
    + unfold SpecFloat.valid_binary, bounded, canonical_mantissa, fexp, SpecFloat.emin.
      change prec with 53. change emax with 1024.
      apply andb_true_intro. split; [apply Z.eqb_eq | apply Z.leb_le]; lia.
    + split; [lia | ]. rewrite Hval. reflexivity.
Qed.

Lemma astype_int_Z2float (z : Z) :
  - 2 ^ 53 < z < 2 ^ 53 -> astype_int (Z2float z) = z.
Proof.
  intros Hz. unfold astype_int, Z2float.
  destruct z as [ | p | p].
  - reflexivity.
  - destruct (binary_normalize_small p) as (m & e & Hpos & _ & Hvalid & He & Hm);
      [lia | ].
    rewrite Hpos, (Prim2SF_SF2Prim _ Hvalid).
    destruct e as [ | q | q]; [cbn in Hm; lia | lia | ].
    rewrite Z.shiftr_div_pow2, Hm by lia.
    cbn [Z.opp]. apply Z.div_mul. apply Z.pow_nonzero; lia.
  - destruct (binary_normalize_small p) as (m & e & _ & Hneg & Hvalid & He & Hm);
      [lia | ].
    rewrite Hneg, (Prim2SF_SF2Prim (S754_finite true m e) Hvalid).
    destruct e as [ | q | q]; [cbn in Hm; lia | lia | ].
    rewrite Z.shiftr_div_pow2, Hm by lia.
    cbn [Z.opp]. rewrite Z.div_mul by (apply Z.pow_nonzero; lia). reflexivity.
Qed.

(** The sign test of [clip(lower=0)] on the float of an integer. *)
Lemma Z2float_ltb_zero (z : Z) :
  - 2 ^ 53 < z < 2 ^ 53 -> (Z2float z <? 0)%float = (z <? 0).
Proof.
  intros Hz. rewrite ltb_spec. unfold Z2float.
  replace (Prim2SF 0) with (S754_zero false) by reflexivity.
  destruct z as [ | p | p].
  - reflexivity.
  - destruct (binary_normalize_small p) as (m & e & Hpos & _ & Hvalid & _);
      [lia | ].
    rewrite Hpos, (Prim2SF_SF2Prim _ Hvalid). reflexivity.
  - destruct (binary_normalize_small p) as (m & e & _ & Hneg & Hvalid & _);
      [lia | ].
    rewrite Hneg, (Prim2SF_SF2Prim (S754_finite true m e) Hvalid). reflexivity.
Qed.

Lemma clip_cast_exact (z : Z) :
  - 2 ^ 53 < z < 2 ^ 53 ->
  astype_int (clip_min 0 (Z2float z)) = Z.max 0 z.
Proof.
  intros Hz. unfold clip_min. rewrite (Z2float_ltb_zero z Hz).
  destruct (Z.ltb_spec z 0) as [Hneg | Hpos].
  - change (astype_int 0) with 0. lia.
  - rewrite (astype_int_Z2float z Hz). lia.
Qed.

(** The float of such an integer is a number: [fillna] leaves it. *)
Lemma Z2float_not_nan (z : Z) :
  - 2 ^ 53 < z < 2 ^ 53 -> PrimFloat.is_nan (Z2float z) = false.
Proof.
  intros Hz. unfold PrimFloat.is_nan. rewrite eqb_spec. unfold Z2float.
  destruct z as [ | p | p].
  - reflexivity.
  - destruct (binary_normalize_small p) as (m & e & Hpos & _ & Hvalid & _);
      [lia | ].
    rewrite Hpos, (Prim2SF_SF2Prim _ Hvalid).
    unfold SFeqb, SFcompare. rewrite Z.compare_refl.
    change (PosDef.Pos.compare_cont Eq m m) with (Pos.compare m m).
    rewrite Pos.compare_refl. reflexivity.
  - destruct (binary_normalize_small p) as (m & e & _ & Hneg & Hvalid & _);
      [lia | ].
    rewrite Hneg, (Prim2SF_SF2Prim (S754_finite true m e) Hvalid).
    unfold SFeqb, SFcompare. rewrite Z.compare_refl.
    change (PosDef.Pos.compare_cont Eq m m) with (Pos.compare m m).
    rewrite Pos.compare_refl. reflexivity.
Qed.

Lemma div_eucl_div_mod (a b : Z) : Z.div_eucl a b = (a / b, a mod b).
Proof. unfold Z.div, Z.modulo. destruct (Z.div_eucl a b); reflexivity. Qed.

(** The quotient of a non-zero integer by itself is 1.0. *)
Lemma SFdiv_self (s : bool) (p : positive) :
  SFdiv prec emax (S754_finite s p 0) (S754_finite s p 0)
  = S754_finite false 4503599627370496 (-52).
Proof.
  unfold SFdiv, SFdiv_core_binary. cbn [Zdigits2].
  replace (Zpos (digits2_pos p) + 0 - (Zpos (digits2_pos p) + 0)) with 0 by lia.
  change (Z.min (fexp prec emax 0) (0 - 0)) with (-53).
  change (0 - 0 - -53) with 53.
  cbv beta iota zeta.
  rewrite div_eucl_div_mod, Z.shiftl_mul_pow2 by lia.
  rewrite (Z.mul_comm (Zpos p)), Z.div_mul, Z.mod_mul by lia.
  replace (new_location (Zpos p) 0) with loc_Exact
    by (unfold new_location; destruct (Z.even (Zpos p)); reflexivity).
  destruct s; vm_compute; reflexivity.
Qed.

Lemma shr_1_nonneg (mrs : shr_record) : 0 <= shr_m mrs -> 0 <= shr_m (shr_1 mrs).
Proof.
  destruct mrs as [m r s]. cbn [shr_m]. intros Hm.
  destruct m as [ | [p | p | ] | p]; cbn; lia.
Qed.

Lemma iter_pos_nonneg (n : positive) :
  forall mrs, 0 <= shr_m mrs -> 0 <= shr_m (iter_pos shr_1 n mrs).
Proof.
  induction n as [n IH | n IH | ]; intros mrs Hm; cbn [iter_pos].
  - apply IH, IH, shr_1_nonneg, Hm.
  - apply IH, IH, Hm.
  - apply shr_1_nonneg, Hm.
Qed.

Lemma shr_fexp_nonneg (m e : Z) (l : location) :
  0 <= m -> 0 <= shr_m (fst (shr_fexp prec emax m e l)).
Proof.
  intros Hm. unfold shr_fexp, shr.
  assert (H0 : 0 <= shr_m (shr_record_of_loc m l)).
  { destruct l as [ | [ | | ]]; exact Hm. }
  destruct (fexp prec emax (Zdigits2 m + e) - e) as [ | n | n]; cbn [fst];
    [exact H0 | apply iter_pos_nonneg, H0 | exact H0].
Qed.

(** Rounding a non-negative mantissa gives a zero, a finite value or an
    infinity, never NaN. *)
Lemma binary_round_aux_not_nan (s : bool) (m e : Z) (l : location) :
  0 <= m -> binary_round_aux prec emax s m e l <> S754_nan.
Proof.
  intros Hm. unfold binary_round_aux.
  pose proof (shr_fexp_nonneg m e l Hm) as H1.
  destruct (shr_fexp prec emax m e l) as [mrs' e']. cbn [fst] in H1.
  assert (H2 : 0 <= round_nearest_even (shr_m mrs') (loc_of_shr_record mrs')).
  { unfold round_nearest_even.
    destruct (loc_of_shr_record mrs') as [ | [ | | ]]; try exact H1.
    - destruct (Z.even (shr_m mrs')); lia.
    - lia. }
  pose proof (shr_fexp_nonneg _ e' loc_Exact H2) as H3.
  destruct (shr_fexp prec emax _ e' loc_Exact) as [mrs'' e'']. cbn [fst] in H3.
  destruct (shr_m mrs'') as [ | q | q]; [discriminate | | lia].
  destruct (e'' <=? emax - prec); discriminate.
Qed.

Lemma SFdiv_not_nan (x : spec_float) (sy : bool) (my : positive) (ey : Z) :
  (forall s, x <> S754_infinity s) -> x <> S754_nan ->
  SFdiv prec emax x (S754_finite sy my ey) <> S754_nan.
Proof.
  intros Hinf Hnan. destruct x as [sx | sx | | sx mx ex]; cbn [SFdiv];
    try discriminate; try contradiction.
  unfold SFdiv_core_binary.
  set (m' := match _ with Zpos _ => Z.shiftl (Zpos mx) _ | Z0 => Zpos mx | Zneg _ => 0 end).
  assert (Hm' : 0 <= m').
  { subst m'. destruct (ex - ey - _) as [ | n | n]; [lia | | lia].
    apply Z.shiftl_nonneg. lia. }
  rewrite div_eucl_div_mod.
  apply binary_round_aux_not_nan. apply Z.div_pos; lia.
Qed.

(** The float of an integer below 2^53 in magnitude is a zero or a
    finite number. *)
Lemma Prim2SF_Z2float (z : Z) :
  - 2 ^ 53 < z < 2 ^ 53 ->
  (z = 0 /\ Prim2SF (Z2float z) = S754_zero false) \/
  (z <> 0 /\ exists s m e, Prim2SF (Z2float z) = S754_finite s m e).
Proof.
  intros Hz. unfold Z2float. destruct z as [ | p | p].
  - left. split; reflexivity.
  - right. split; [discriminate | ].
    destruct (binary_normalize_small p) as (m & e & Hpos & _ & Hvalid & _);
      [lia | ].
    exists false, m, e. rewrite Hpos. apply (Prim2SF_SF2Prim _ Hvalid).
  - right. split; [discriminate | ].
    destruct (binary_normalize_small p) as (m & e & _ & Hneg & Hvalid & _);
      [lia | ].
    exists true, m, e. rewrite Hneg.
    apply (Prim2SF_SF2Prim (S754_finite true m e) Hvalid).
Qed.

(** An int64 holds what fits it. *)
Lemma int64_wrap_fits (z : Z) :
  - 2 ^ 63 <= z < 2 ^ 63 -> int64_wrap z = z.
Proof.
  intros Hz. unfold int64_wrap. rewrite Z.mod_small by lia. lia.
Qed.

End FloatOfInt.

(* ================================================================= *)
(** * Rates and the herd-immunity threshold *)

(** [g / g] is 1.0 for every integer but 0. *)
Lemma int_truediv_self (g : Z) : g <> 0 -> int_truediv g g = Returned 1%float.
Proof.
  intros Hg. unfold int_truediv.
  destruct (Z.eqb_spec g 0) as [H0 | _]; [contradiction | ].
  destruct g as [ | p | p]; [contradiction | | ]; cbn [SF_of_int];
    rewrite SFdiv_self; reflexivity.
Qed.

(** C8 (as the code has it). Each of [calculate_cfr],
    [calculate_recovery_rate] and [calculate_active_rate] returns 0.0,
    and divides nothing, when [cases = 0]. Otherwise the quotient
    [numerator / cases] is the exact quotient of the two integers rounded
    once to binary64: when that is beyond the largest float the call
    raises [OverflowError], and else it returns the quotient times 100.
    In particular [calculate_cfr(0, 0) = 0.0] and
    [calculate_cfr(25, 1000) = 2.5]. *)
Theorem rates_zero_guard_and_formula :
  forall numerator cases : Z,
    (cases = 0 ->
       calculate_cfr numerator cases = Returned 0%float /\
       calculate_recovery_rate numerator cases = Returned 0%float /\
       calculate_active_rate numerator cases = Returned 0%float) /\
    (cases <> 0 ->
       forall rate : outcome float,
         rate = match SFdiv prec emax (SF_of_int numerator) (SF_of_int cases) with
                | S754_infinity _ => Raised OverflowError
                | quotient => Returned (SF2Prim quotient * 100)%float
                end ->
         calculate_cfr numerator cases = rate /\
         calculate_recovery_rate numerator cases = rate /\
         calculate_active_rate numerator cases = rate) /\
    calculate_cfr 0 0 = Returned 0%float /\
    calculate_cfr 25 1000 = Returned 2.5%float /\
    calculate_cfr (2 ^ 53 + 1) 7 = Returned 1.2867427506772848e+17%float.
Proof.
  intros numerator cases. split; [ | split; [ | split; [ | split ] ] ].
  - intros ->. repeat split.
  - intros Hc rate ->.
    unfold calculate_cfr, calculate_recovery_rate, calculate_active_rate,
      int_truediv.
    destruct (Z.eqb_spec cases 0) as [H0 | _]; [contradiction | ].
    destruct (SFdiv prec emax (SF_of_int numerator) (SF_of_int cases));
      repeat split.
  - reflexivity.
  - vm_compute. reflexivity.
  - vm_compute. reflexivity.
Qed.

(** C8 as stated fails: a quotient beyond the largest float is not
    returned; the division raises [OverflowError]. *)
Lemma rates_overflow_on_huge_quotient :
  calculate_cfr (10 ^ 400) 3 = Raised OverflowError /\
  calculate_recovery_rate (10 ^ 400) 3 = Raised OverflowError /\
  calculate_active_rate (10 ^ 400) 3 = Raised OverflowError.
Proof. repeat split; vm_compute; reflexivity. Qed.

(** C9. [calculate_herd_immunity_threshold(r0)] returns 0.0 for every
    [r0 <= 1] and [(1 - 1/r0) * 100] for every [r0 > 1], raising
    nothing; in binary64 it returns 60.0 at 2.5 and 0.0 at 0.8. *)
Theorem herd_immunity_threshold_formula :
  forall r0 : float,
    ((r0 <=? 1)%float = true ->
       calculate_herd_immunity_threshold r0 = Returned 0%float) /\
    ((1 <? r0)%float = true ->
       calculate_herd_immunity_threshold r0
       = Returned ((1 - 1 / r0) * 100)%float) /\
    calculate_herd_immunity_threshold 2.5 = Returned 60%float /\
    calculate_herd_immunity_threshold 0.8 = Returned 0%float.
Proof.
  intros r0. split; [ | split; [ | split ] ].
  - unfold calculate_herd_immunity_threshold. intros ->. reflexivity.
  - intros H. unfold calculate_herd_immunity_threshold, float_truediv.
    rewrite (float_ltb_not_leb _ _ H).
    rewrite (float_not_leb_one_nonzero _ (float_ltb_not_leb _ _ H)).
    reflexivity.
  - vm_compute. reflexivity.
  - vm_compute. reflexivity.
Qed.

(* ================================================================= *)
(** * Ingestion: the derived daily columns *)

Section Ingestion.

Lemma rows_from_cons (p r : RawRow) (rest : list RawRow) :
  rows_from p (r :: rest) = next_row p r :: rows_from r rest.
Proof. reflexivity. Qed.

(** Clipping at 0 and casting the float of an integer below 2^53. *)
Lemma astype_int64_clip (z : Z) :
  - 2 ^ 53 < z < 2 ^ 53 ->
  astype_int64 (clip_min 0 (Z2float z)) = Z.max 0 z.
Proof.
  intros Hz. unfold clip_min. rewrite (Z2float_ltb_zero z Hz).
  destruct (Z.ltb_spec z 0) as [Hneg | Hpos].
  - change (astype_int64 0) with 0. lia.
  - unfold astype_int64. rewrite (astype_int_Z2float z Hz).
    destruct (Prim2SF_Z2float z Hz) as [[H0 Hzero] | [Hnz (s & m & e & Hf)]].
    + rewrite Hzero. lia.
    + rewrite Hf.
      destruct (Z.leb_spec (- 2 ^ 63) z) as [_ | H]; [ | lia].
      destruct (Z.ltb_spec z (2 ^ 63)) as [_ | H]; [ | lia].
      cbn [andb]. lia.
Qed.

(** Below 2^53 the float64 detour of
    [diff().fillna(0).clip(lower=0).astype(int)] loses nothing: each
    value is [max(0, current - previous)]. *)
Lemma diff_from_exact (xs : list Z) :
  forall prev : Z,
    0 <= prev < 2 ^ 53 ->
    Forall (fun x => 0 <= x < 2 ^ 53) xs ->
    map astype_int64 (clip_lower 0 (fillna 0 (diff_from prev xs)))
    = clamped_from prev xs.
Proof.
  induction xs as [ | x rest IH]; intros prev Hprev Hall; [reflexivity | ].
  inversion Hall as [ | ? ? Hx Hrest]; subst.
  specialize (IH x Hx Hrest). unfold clip_lower, fillna in *.
  cbn [diff_from map clamped_from]. rewrite IH. f_equal.
  rewrite int64_wrap_fits by lia.
  rewrite Z2float_not_nan by lia.
  fold (clip_min 0 (Z2float (x - prev))).
  rewrite astype_int64_clip by lia. reflexivity.
Qed.

Lemma daily_exact (x : Z) (rest : list Z) :
  Forall (fun x => 0 <= x < 2 ^ 53) (x :: rest) ->
  daily (x :: rest) = 0 :: clamped_from x rest.
Proof.
  intros Hall. inversion Hall as [ | ? ? Hx Hrest]; subst.
  pose proof (diff_from_exact rest x Hx Hrest) as Hrest'.
  unfold daily, diff, clip_lower, fillna in *. cbn [map].
  rewrite Hrest'. reflexivity.
Qed.

Lemma length_diff_from (xs : list Z) :
  forall prev, length (diff_from prev xs) = length xs.
Proof.
  induction xs as [ | x rest IH]; intros prev; cbn; [reflexivity | ].
  now rewrite IH.
Qed.

Lemma length_daily (xs : list Z) : length (daily xs) = length xs.
Proof.
  unfold daily, clip_lower, fillna, diff. rewrite !length_map.
  destruct xs as [ | x rest]; [reflexivity | ].
  cbn [length]. now rewrite length_diff_from.
Qed.

(** The daily columns are added beside the parsed ones. *)
Lemma with_daily_to_raw (rs : list RawRow) :
  forall kb mb sb : list Z,
    length kb = length rs -> length mb = length rs -> length sb = length rs ->
    map to_raw (with_daily rs kb mb sb) = rs.
Proof.
  induction rs as [ | r rest IH]; intros [ | k kb] [ | m mb] [ | s sb];
    cbn [length with_daily map]; intros Hk Hm Hs;
    try discriminate; try reflexivity.
  rewrite IH by congruence. destruct r; reflexivity.
Qed.

Lemma rows_from_to_raw (rs : list RawRow) :
  forall p, map to_raw (rows_from p rs) = rs.
Proof.
  induction rs as [ | r rest IH]; intros p; [reflexivity | ].
  rewrite rows_from_cons. cbn [map]. rewrite IH.
  destruct r; reflexivity.
Qed.

Lemma rows_from_nonneg (rs : list RawRow) :
  forall p,
    Forall (fun r => 0 <= Kasus_Baru r /\ 0 <= Kematian_Baru r /\ 0 <= Sembuh_Baru r)
           (rows_from p rs).
Proof.
  induction rs as [ | r rest IH]; intros p; [constructor | ].
  rewrite rows_from_cons. constructor; [ | apply IH].
  cbn. repeat split; apply Z.le_max_l.
Qed.

Lemma rows_from_adjacent (rs : list RawRow) :
  forall (p : RawRow) (x0 : Row) (i : nat) (a b : Row),
    Kasus x0 = raw_Kasus p ->
    Kematian x0 = raw_Kematian p ->
    Sembuh x0 = raw_Sembuh p ->
    nth_error (x0 :: rows_from p rs) i = Some a ->
    nth_error (x0 :: rows_from p rs) (S i) = Some b ->
    Kasus_Baru b = Z.max 0 (Kasus b - Kasus a) /\
    Kematian_Baru b = Z.max 0 (Kematian b - Kematian a) /\
    Sembuh_Baru b = Z.max 0 (Sembuh b - Sembuh a).
Proof.
  induction rs as [ | r rest IH]; intros p x0 i a b Hk Hm Hs Ha Hb.
  - destruct i; discriminate.
  - rewrite rows_from_cons in Ha, Hb. destruct i as [ | i].
    + cbn in Ha, Hb. injection Ha as <-. injection Hb as <-.
      cbn. rewrite Hk, Hm, Hs. repeat split.
    + cbn [nth_error] in Ha, Hb.
      apply (IH r (next_row p r) i a b); try reflexivity; assumption.
Qed.

Lemma insert_by_perm {A : Type} (key : A -> Z) (x : A) (l : list A) :
  Permutation (insert_by key x l) (x :: l).
Proof.
  induction l as [ | y rest IH]; cbn; [reflexivity | ].
  destruct (key x <? key y); [reflexivity | ].
  rewrite IH. apply perm_swap.
Qed.

Lemma sort_values_perm {A : Type} (key : A -> Z) (l : list A) :
  Permutation (sort_values key l) l.
Proof.
  unfold sort_values.
  assert (H : forall acc,
             Permutation (fold_left (fun acc x => insert_by key x acc) l acc)
                         (l ++ acc)).
  { induction l as [ | x rest IH]; intros acc; cbn; [reflexivity | ].
    rewrite IH, insert_by_perm. symmetry. apply Permutation_middle. }
  rewrite H, app_nil_r. reflexivity.
Qed.

Lemma insert_by_sorted {A : Type} (key : A -> Z) (x : A) (l : list A) :
  Sorted Z.le (map key l) -> Sorted Z.le (map key (insert_by key x l)).
Proof.
  induction l as [ | y rest IH]; cbn; intros Hs.
  - repeat constructor.
  - destruct (Z.ltb_spec (key x) (key y)) as [Hlt | Hge]; cbn.
    + constructor; [exact Hs | constructor; lia].
    + inversion Hs as [ | ? ? Hs' Hhd]; subst.
      constructor; [apply IH; exact Hs' | ].
      destruct rest as [ | z rest']; cbn.
      * constructor. exact Hge.
      * destruct (key x <? key z); cbn; constructor;
          [exact Hge | inversion Hhd; assumption].
Qed.

Lemma sort_values_sorted {A : Type} (key : A -> Z) (l : list A) :
  Sorted Z.le (map key (sort_values key l)).
Proof.
  unfold sort_values.
  assert (H : forall acc,
             Sorted Z.le (map key acc) ->
             Sorted Z.le
               (map key (fold_left (fun acc x => insert_by key x acc) l acc))).
  { induction l as [ | x rest IH]; intros acc Hacc; cbn; [exact Hacc | ].
    apply IH, insert_by_sorted, Hacc. }
  apply H. constructor.
Qed.

Lemma length_insert_by {A : Type} (key : A -> Z) (x : A) (l : list A) :
  length (insert_by key x l) = S (length l).
Proof.
  induction l as [ | y rest IH]; cbn; [reflexivity | ].
  destruct (key x <? key y); cbn; [reflexivity | now rewrite IH].
Qed.

Lemma length_sort_values {A : Type} (key : A -> Z) (l : list A) :
  length (sort_values key l) = length l.
Proof.
  unfold sort_values.
  assert (H : forall acc, length (fold_left (fun acc x => insert_by key x acc) l acc)
                          = (length l + length acc)%nat).
  { induction l as [ | x rest IH]; intros acc; cbn; [reflexivity | ].
    rewrite IH, length_insert_by. lia. }
  rewrite H. cbn. lia.
Qed.

Lemma rows_range_index (rs : list Row) : rows (range_index rs) = rs.
Proof.
  unfold rows, range_index.
  assert (H : forall (ls : list Z), length ls = length rs ->
                                    map snd (combine ls rs) = rs).
  { induction rs as [ | r rest IH]; intros [ | l ls] Hl; cbn in *;
      try reflexivity; try discriminate.
    f_equal. apply IH. lia. }
  apply H. now rewrite length_map, length_seq.
Qed.

(** Whatever the counts are, the frame holds the parsed rows in the order
    [sort_values] gives them. *)
Lemma build_frame_to_raw (rs : list RawRow) :
  map to_raw (rows (build_frame rs)) = sort_values raw_Tanggal rs.
Proof.
  unfold build_frame. rewrite rows_range_index.
  apply with_daily_to_raw; rewrite length_daily, length_map; reflexivity.
Qed.

Lemma counts_exact_spec (r : RawRow) :
  counts_exact r = true ->
  0 <= raw_Kasus r < 2 ^ 53 /\ 0 <= raw_Kematian r < 2 ^ 53 /\
  0 <= raw_Sembuh r < 2 ^ 53.
Proof.
  unfold counts_exact. rewrite !andb_true_iff, !Z.leb_le, !Z.ltb_lt. tauto.
Qed.

(** The frame built from one row or more with counts below 2^53: the
    first row has zero daily columns, every later row is clamped against
    the row before it. *)
Lemma build_frame_rows (rs : list RawRow) :
  rs <> [] ->
  forallb counts_exact rs = true ->
  exists p rest,
    sort_values raw_Tanggal rs = p :: rest /\
    rows (build_frame rs) = first_row p :: rows_from p rest.
Proof.
  intros Hne Hex.
  assert (Hsorted : Forall (fun r => counts_exact r = true)
                           (sort_values raw_Tanggal rs)).
  { rewrite Forall_forall. intros r Hr.
    rewrite forallb_forall in Hex. apply Hex.
    apply (Permutation_in _ (sort_values_perm raw_Tanggal rs)). exact Hr. }
  destruct (sort_values raw_Tanggal rs) as [ | p rest] eqn:Hs.
  - apply (f_equal (@length RawRow)) in Hs.
    rewrite length_sort_values in Hs.
    destruct rs; [contradiction | discriminate].
  - exists p, rest. split; [reflexivity | ].
    unfold build_frame. rewrite Hs, rows_range_index.
    assert (Hcol : forall col : RawRow -> Z,
               (forall r, counts_exact r = true -> 0 <= col r < 2 ^ 53) ->
               daily (map col (p :: rest))
               = 0 :: clamped_from (col p) (map col rest)).
    { intros col Hc. cbn [map]. apply daily_exact.
      change (col p :: map col rest) with (map col (p :: rest)).
      rewrite Forall_map. rewrite Forall_forall in Hsorted |- *.
      intros r Hr. apply Hc, Hsorted, Hr. }
    rewrite (Hcol raw_Kasus), (Hcol raw_Kematian), (Hcol raw_Sembuh);
      try (intros r Hr; apply counts_exact_spec in Hr; tauto).
    reflexivity.
Qed.

(** C1. For every payload with at least one row that parses and whose
    parsed counts all lie in [0, 2^53), [get_historical_df] returns a
    frame that holds the parsed rows in ascending order of date and in
    which each daily column (Kasus_Baru, Kematian_Baru, Sembuh_Baru) is
    0 in the first row and [max(0, current - previous)] of its
    cumulative column in every later row. Hence no daily value is
    negative, and wherever the cumulative value does not decrease the
    daily value is the exact difference. *)
Theorem daily_columns_are_clamped_differences :
  forall (NP : NumPy) (g : RandomState) (timeline : Timeline),
    parse_timeline timeline <> [] ->
    forallb counts_exact (parse_timeline timeline) = true ->
    exists df : DataFrame,
      get_historical_df g (WithTimeline timeline) = (Returned df, g) /\
      Permutation
        (map (fun r => mkRawRow (Tanggal r) (Kasus r) (Kematian r) (Sembuh r))
             (rows df))
        (parse_timeline timeline) /\
      Sorted Z.le (map Tanggal (rows df)) /\
      (forall r, nth_error (rows df) 0 = Some r ->
         Kasus_Baru r = 0 /\ Kematian_Baru r = 0 /\ Sembuh_Baru r = 0) /\
      (forall i prev cur,
         nth_error (rows df) i = Some prev ->
         nth_error (rows df) (S i) = Some cur ->
         Kasus_Baru cur = Z.max 0 (Kasus cur - Kasus prev) /\
         Kematian_Baru cur = Z.max 0 (Kematian cur - Kematian prev) /\
         Sembuh_Baru cur = Z.max 0 (Sembuh cur - Sembuh prev)) /\
      (forall r, In r (rows df) ->
         0 <= Kasus_Baru r /\ 0 <= Kematian_Baru r /\ 0 <= Sembuh_Baru r) /\
      (forall i prev cur,
         nth_error (rows df) i = Some prev ->
         nth_error (rows df) (S i) = Some cur ->
         (Kasus prev <= Kasus cur -> Kasus_Baru cur = Kasus cur - Kasus prev) /\
         (Kematian prev <= Kematian cur ->
            Kematian_Baru cur = Kematian cur - Kematian prev) /\
         (Sembuh prev <= Sembuh cur ->
            Sembuh_Baru cur = Sembuh cur - Sembuh prev)).
Proof.
  intros NP g timeline Hne Hexact.
  exists (build_frame (parse_timeline timeline)).
  destruct (build_frame_rows _ Hne Hexact) as (p & rest & Hsort & Hrows).
  pose proof (build_frame_to_raw (parse_timeline timeline)) as Hraw.
  unfold to_raw in Hraw.
  assert (Hadj : forall i prev cur,
             nth_error (rows (build_frame (parse_timeline timeline))) i = Some prev ->
             nth_error (rows (build_frame (parse_timeline timeline))) (S i) = Some cur ->
             Kasus_Baru cur = Z.max 0 (Kasus cur - Kasus prev) /\
             Kematian_Baru cur = Z.max 0 (Kematian cur - Kematian prev) /\
             Sembuh_Baru cur = Z.max 0 (Sembuh cur - Sembuh prev)).
  { intros i prev cur Hp Hc. rewrite Hrows in Hp, Hc.
    apply (rows_from_adjacent rest p (first_row p) i prev cur);
      try reflexivity; assumption. }
  split; [ | split; [ | split; [ | split; [ | split; [ | split ] ] ] ] ].
  - unfold get_historical_df.
    destruct (parse_timeline timeline); [contradiction | reflexivity].
  - rewrite Hraw. apply sort_values_perm.
  - replace (map Tanggal (rows (build_frame (parse_timeline timeline))))
      with (map raw_Tanggal (sort_values raw_Tanggal (parse_timeline timeline))).
    + apply sort_values_sorted.
    + rewrite <- Hraw, map_map. reflexivity.
  - intros r Hr. rewrite Hrows in Hr. cbn in Hr. injection Hr as <-.
    repeat split.
  - exact Hadj.
  - intros r Hin. rewrite Hrows in Hin. destruct Hin as [<- | Hin].
    + cbn. lia.
    + pose proof (rows_from_nonneg rest p) as Hall.
      rewrite Forall_forall in Hall. apply Hall. exact Hin.
  - intros i prev cur Hp Hc.
    destruct (Hadj i prev cur Hp Hc) as (Hk & Hm & Hs).
    rewrite Hk, Hm, Hs. repeat split; intros; lia.
Qed.

End Ingestion.
(* ================================================================= *)
(** * Ingestion: order and labels of the frame *)

Section IngestionOrder.

Lemma labels_range_index (rs : list Row) :
  labels (range_index rs) = map Z.of_nat (seq 0 (length rs)).
Proof.
  unfold labels, range_index.
  assert (H : forall (ls : list Z), length ls = length rs ->
                                    map fst (combine ls rs) = ls).
  { induction rs as [ | r rest IH]; intros [ | l ls] Hl; cbn in *;
      try reflexivity; try discriminate.
    f_equal. apply IH. lia. }
  apply H. now rewrite length_map, length_seq.
Qed.

Lemma NoDup_range (n : nat) :
  forall a, NoDup (map Z.of_nat (seq a n)).
Proof.
  induction n as [ | n IH]; intros a; cbn; constructor; [ | apply IH].
  rewrite in_map_iff. intros (k & Hk & Hin).
  apply in_seq in Hin. lia.
Qed.

Lemma NoDup_labels_filter (keep : Z * Row -> bool) (df : DataFrame) :
  NoDup (labels df) -> NoDup (labels (filter keep df)).
Proof.
  unfold labels. induction df as [ | p rest IH]; cbn; intros Hnd;
    [constructor | ].
  inversion Hnd as [ | ? ? Hnotin Hnd']; subst.
  destruct (keep p); cbn; [ | now apply IH].
  constructor; [ | now apply IH].
  intros Hin. apply Hnotin.
  rewrite in_map_iff in Hin |- *.
  destruct Hin as (q & Hq & Hin). exists q. split; [exact Hq | ].
  apply filter_In in Hin. tauto.
Qed.

(** The frame built from the parsed rows holds exactly those rows,
    in ascending order of date, labelled 0, 1, 2, ...; its labels are
    therefore distinct. *)
Theorem build_frame_sorted_and_labelled :
  forall rs : list RawRow,
    Permutation
      (map (fun r => mkRawRow (Tanggal r) (Kasus r) (Kematian r) (Sembuh r))
           (rows (build_frame rs)))
      rs /\
    Sorted Z.le (map Tanggal (rows (build_frame rs))) /\
    labels (build_frame rs) = map Z.of_nat (seq 0 (length rs)) /\
    NoDup (labels (build_frame rs)).
Proof.
  intros rs.
  pose proof (build_frame_to_raw rs) as Hraw. unfold to_raw in Hraw.
  assert (Hlen : length (rows (build_frame rs)) = length rs).
  { apply (f_equal (@length RawRow)) in Hraw.
    now rewrite length_map, length_sort_values in Hraw. }
  assert (Hlab : labels (build_frame rs) = map Z.of_nat (seq 0 (length rs))).
  { unfold build_frame at 1. rewrite labels_range_index.
    unfold build_frame in Hlen. rewrite rows_range_index in Hlen.
    now rewrite Hlen. }
  split; [rewrite Hraw; apply sort_values_perm | ].
  split.
  - replace (map Tanggal (rows (build_frame rs)))
      with (map raw_Tanggal (sort_values raw_Tanggal rs)).
    + apply sort_values_sorted.
    + rewrite <- Hraw, map_map. reflexivity.
  - split; [exact Hlab | ]. rewrite Hlab. apply NoDup_range.
Qed.

End IngestionOrder.

Lemma daily_columns_witness :
  exists df : DataFrame,
    get_historical_df (H := numpy_stub) 0 (WithTimeline timeline_small)
    = (Returned df, 0) /\
    map Kasus (rows df) = [2; 5; 4; 10] /\
    map Kasus_Baru (rows df) = [0; 3; 0; 6].
Proof.
  destruct (daily_columns_are_clamped_differences numpy_stub 0 timeline_small)
    as (df & Hdf & _).
  - vm_compute. discriminate.
  - vm_compute. reflexivity.
  - exists df. split; [exact Hdf | ].
    vm_compute in Hdf. injection Hdf as <-. vm_compute. split; reflexivity.
Defined.

(** From 2^53 on the float64 of a difference is no longer the
    difference: with 0 cases on the first day and 2^53 + 1 on the second,
    the second day's Kasus_Baru is 2^53, not the difference of the two
    cumulative values, although these do not decrease. *)
Lemma daily_difference_rounds_above_2_53 :
  exists (df : DataFrame) (prev cur : Row),
    get_historical_df (H := numpy_stub) 0 (WithTimeline timeline_above_2_53)
    = (Returned df, 0) /\
    nth_error (rows df) 0 = Some prev /\
    nth_error (rows df) 1 = Some cur /\
    Kasus prev = 0 /\
    Kasus cur = 2 ^ 53 + 1 /\
    Kasus_Baru cur = 2 ^ 53 /\
    Kasus_Baru cur <> Z.max 0 (Kasus cur - Kasus prev).
Proof.
  eexists. eexists. eexists.
  split; [vm_compute; reflexivity | ].
  split; [vm_compute; reflexivity | ].
  split; [vm_compute; reflexivity | ].
  split; [reflexivity | ].
  split; [reflexivity | ].
  split; [reflexivity | ].
  vm_compute. discriminate.
Qed.

(* ================================================================= *)
(** * Ingestion: the synthetic fallback *)

Section Fallback.

Context {NP : NumPy}.

Lemma parse_timeline_no_valid_date (t : Timeline) :
  Forall (fun k => strptime_mdy k = None) (keys (get_or_empty (tl_cases t))) ->
  parse_timeline t = [].
Proof.
  unfold parse_timeline.
  induction 1 as [ | k ks Hk _ IH]; [reflexivity | ].
  cbn [flat_map]. rewrite Hk, IH. reflexivity.
Qed.

Lemma length_range_index (rs : list Row) :
  length (range_index rs) = length rs.
Proof.
  unfold range_index.
  rewrite length_combine, length_map, length_seq. apply Nat.min_id.
Qed.

Lemma length_cumsum_from (xs : list Z) :
  forall acc, length (cumsum_from acc xs) = length xs.
Proof.
  induction xs as [ | x rest IH]; intros acc; cbn; [reflexivity | ].
  now rewrite IH.
Qed.

Lemma length_sample_rows (n : nat) :
  forall dates cum dth rec new : list Z,
    length dates = n -> length cum = n -> length dth = n ->
    length rec = n -> length new = n ->
    length (sample_rows dates cum dth rec new) = n.
Proof.
  induction n as [ | n IH];
    intros [ | t dates] [ | c cum] [ | d dth] [ | r rec] [ | x new];
    cbn [length sample_rows]; intros H1 H2 H3 H4 H5;
    try discriminate; try reflexivity.
  f_equal. apply IH; congruence.
Qed.

(** The fallback frame does not depend on the state of the generator at
    the time of the call: the function reseeds first. *)
Lemma sample_ignores_state (g g' : RandomState) :
  _get_sample_historical_df g = _get_sample_historical_df g'.
Proof. reflexivity. Qed.

Lemma sample_length (g : RandomState) :
  length (fst (_get_sample_historical_df g)) = 365%nat.
Proof.
  unfold _get_sample_historical_df.
  pose proof (np_random_normal_size 0%float 10%float 365 (np_random_seed 42))
    as Hn.
  destruct (np_random_normal 0 10 365 (np_random_seed 42)) as [noise g2].
  cbn [fst] in *.
  rewrite length_range_index.
  apply length_sample_rows;
    unfold cumsum;
    repeat first [ rewrite length_map | rewrite length_cumsum_from
                 | rewrite length_combine | rewrite length_seq | rewrite Hn ];
    reflexivity.
Qed.

(** C5 (as the code has it). A payload with zero rows left after parsing
    raises nothing: [get_historical_df] itself returns the frame of
    [_get_sample_historical_df], as it does when the fetch failed or the
    payload has no timeline. That frame has exactly 365 rows and is the
    same on every call, whatever the state of the global generator,
    because the function reseeds it with 42; the state left behind is the
    same too. *)
Theorem empty_source_returns_seeded_sample :
  forall (g g' : RandomState) (timeline : Timeline),
    parse_timeline timeline = [] ->
    exists (df : DataFrame) (g_after : RandomState),
      get_historical_df g (WithTimeline timeline) = (Returned df, g_after) /\
      get_historical_df g' (WithTimeline timeline) = (Returned df, g_after) /\
      get_historical_df g FetchFailed = (Returned df, g_after) /\
      get_historical_df g NoTimeline = (Returned df, g_after) /\
      _get_sample_historical_df g = (df, g_after) /\
      _get_sample_historical_df g' = (df, g_after) /\
      length df = 365%nat.
Proof.
  intros g g' timeline Hparse.
  exists (fst (_get_sample_historical_df g)), (snd (_get_sample_historical_df g)).
  unfold get_historical_df. rewrite Hparse.
  rewrite (sample_ignores_state g' g).
  pose proof (sample_length g) as Hlen.
  destruct (_get_sample_historical_df g) as [df g2]. cbn [fst snd] in *.
  repeat split. exact Hlen.
Qed.

Lemma sample_rows_running_total (new : list Z) :
  forall (acc : Z) (dates dth rec : list Z),
    let frame := sample_rows dates (cumsum_from acc new) dth rec new in
    (forall r, nth_error frame 0 = Some r -> Kasus r = acc + Kasus_Baru r) /\
    (forall i prev cur,
        nth_error frame i = Some prev ->
        nth_error frame (S i) = Some cur ->
        Kasus cur = Kasus prev + Kasus_Baru cur).
Proof.
  induction new as [ | x new IH]; intros acc dates dth rec frame.
  - subst frame. destruct dates; split; intros; discriminate.
  - subst frame. cbn [cumsum_from].
    destruct dates as [ | t dates], dth as [ | d dth], rec as [ | c rec];
      cbn [sample_rows]; try (split; intros; discriminate).
    destruct (IH (acc + x) dates dth rec) as [Hfirst Hadj].
    split.
    + intros r Hr. cbn in Hr. injection Hr as <-. reflexivity.
    + intros [ | i] prev cur Hp Hc.
      * cbn in Hp. injection Hp as <-. cbn [nth_error] in Hc.
        rewrite (Hfirst cur Hc). reflexivity.
      * cbn [nth_error] in Hp, Hc. exact (Hadj i prev cur Hp Hc).
Qed.

(** In the fallback frame the cumulative cases are the running total of
    the daily cases: the first row's daily value is its cumulative value
    (it is not set to 0), and each later cumulative value is the previous
    one plus the day's cases. *)
Theorem sample_cases_are_running_total :
  forall g : RandomState,
    (forall r,
        nth_error (rows (fst (_get_sample_historical_df g))) 0 = Some r ->
        Kasus r = Kasus_Baru r) /\
    (forall i prev cur,
        nth_error (rows (fst (_get_sample_historical_df g))) i = Some prev ->
        nth_error (rows (fst (_get_sample_historical_df g))) (S i) = Some cur ->
        Kasus cur = Kasus prev + Kasus_Baru cur).
Proof.
  intros g. unfold _get_sample_historical_df.
  destruct (np_random_normal 0 10 365 (np_random_seed 42)) as [noise g2].
  cbn [fst]. rewrite rows_range_index. unfold cumsum.
  apply sample_rows_running_total.
Qed.

End Fallback.

Lemma empty_source_witness :
  parse_timeline timeline_unparsable = [] /\
  length (fst (_get_sample_historical_df (H := numpy_stub) 7)) = 365%nat.
Proof.
  split; [reflexivity | ].
  destruct (@empty_source_returns_seeded_sample numpy_stub 7 11
              timeline_unparsable eq_refl)
    as (df & g2 & _ & _ & _ & _ & Hs & _ & Hlen).
  rewrite Hs. exact Hlen.
Defined.

(** C5 as stated fails: on a payload with no parsable date the call
    raises no error of any kind; it returns the 365-row sample. *)
Lemma empty_source_raises_nothing :
  (forall e : exn,
      fst (get_historical_df (H := numpy_stub) 7 (WithTimeline timeline_unparsable))
      <> Raised e) /\
  fst (get_historical_df (H := numpy_stub) 7 (WithTimeline timeline_unparsable))
  = Returned (fst (_get_sample_historical_df (H := numpy_stub) 7)).
Proof.
  split.
  - intros e. vm_compute. discriminate.
  - vm_compute. reflexivity.
Qed.

(* ================================================================= *)
(** * The date filter *)

Section DateFilter.

Lemma filter_twice {A : Type} (f g : A -> bool) (l : list A) :
  filter g (filter f l) = filter (fun x => f x && g x) l.
Proof.
  induction l as [ | x rest IH]; cbn; [reflexivity | ].
  destruct (f x); cbn; [destruct (g x); now rewrite IH | exact IH].
Qed.

Lemma filter_all {A : Type} (f : A -> bool) (l : list A) :
  (forall x, In x l -> f x = true) -> filter f l = l.
Proof.
  induction l as [ | x rest IH]; intros H; cbn; [reflexivity | ].
  rewrite (H x (or_introl eq_refl)). f_equal.
  apply IH. intros y Hy. apply H. now right.
Qed.

Lemma filter_none {A : Type} (f : A -> bool) (l : list A) :
  (forall x, In x l -> f x = false) -> filter f l = [].
Proof.
  induction l as [ | x rest IH]; intros H; cbn; [reflexivity | ].
  rewrite (H x (or_introl eq_refl)).
  apply IH. intros y Hy. apply H. now right.
Qed.

Lemma fold_min_le (l : list Z) :
  forall a, fold_left Z.min l a <= a /\
            forall x, In x l -> fold_left Z.min l a <= x.
Proof.
  induction l as [ | y rest IH]; intros a; cbn.
  - split; [lia | contradiction].
  - destruct (IH (Z.min a y)) as [H1 H2]. split; [lia | ].
    intros x [<- | Hx]; [lia | now apply H2].
Qed.

Lemma fold_max_ge (l : list Z) :
  forall a, a <= fold_left Z.max l a /\
            forall x, In x l -> x <= fold_left Z.max l a.
Proof.
  induction l as [ | y rest IH]; intros a; cbn.
  - split; [lia | contradiction].
  - destruct (IH (Z.max a y)) as [H1 H2]. split; [lia | ].
    intros x [<- | Hx]; [lia | now apply H2].
Qed.

Lemma filter_by_date_range_is_filter (df : DataFrame)
  (start_date end_date : option Z) :
  filter_by_date_range df start_date end_date "Tanggal"
  = Returned
      (filter (fun p => in_date_range start_date end_date (Tanggal (snd p))) df).
Proof.
  destruct df as [ | p rest]; [reflexivity | ].
  unfold filter_by_date_range, in_date_range.
  change (column_of "Tanggal") with (Some Tanggal).
  set (l := p :: rest).
  destruct start_date as [s | ], end_date as [e | ]; cbn [bind].
  - now rewrite filter_twice.
  - f_equal. apply filter_ext. intros x. now rewrite andb_true_r.
  - reflexivity.
  - f_equal. symmetry. apply filter_all. reflexivity.
Qed.

(** C6. [filter_by_date_range] returns, and never raises, the rows
    whose date lies in the inclusive range, in their order and with their
    labels; a missing bound is no bound; when no row qualifies the result
    is the empty frame; and filtering a frame to the range from its
    smallest to its largest date gives the frame back. *)
Theorem filter_by_date_range_inclusive :
  forall (df : DataFrame) (start_date end_date : option Z),
    (exists out : DataFrame,
        filter_by_date_range df start_date end_date "Tanggal" = Returned out /\
        out = filter (fun p => in_date_range start_date end_date (Tanggal (snd p))) df /\
        (forall p, In p out <->
                   In p df /\
                   match start_date with Some s => s <= Tanggal (snd p) | None => True end /\
                   match end_date with Some e => Tanggal (snd p) <= e | None => True end) /\
        ((forall p, In p df ->
                    in_date_range start_date end_date (Tanggal (snd p)) = false) ->
         out = [])) /\
    filter_by_date_range df None None "Tanggal" = Returned df /\
    filter_by_date_range df
      (series_min (map Tanggal (rows df))) (series_max (map Tanggal (rows df)))
      "Tanggal"
    = Returned df.
Proof.
  intros df start_date end_date. split; [ | split].
  - eexists. split; [apply filter_by_date_range_is_filter | ].
    split; [reflexivity | ]. split.
    + intros p. rewrite filter_In. unfold in_date_range.
      rewrite andb_true_iff.
      destruct start_date as [s | ], end_date as [e | ];
        rewrite ?Z.leb_le; intuition.
    + apply filter_none.
  - rewrite filter_by_date_range_is_filter. apply f_equal.
    apply filter_all. reflexivity.
  - rewrite filter_by_date_range_is_filter. apply f_equal.
    apply filter_all. intros p Hp.
    assert (Hd : In (Tanggal (snd p)) (map Tanggal (rows df))).
    { unfold rows. rewrite map_map. apply (in_map (fun q => Tanggal (snd q))).
      exact Hp. }
    destruct (map Tanggal (rows df)) as [ | d ds]; [contradiction | ].
    unfold in_date_range, series_min, series_max.
    destruct (fold_min_le ds d) as [Hm1 Hm2].
    destruct (fold_max_ge ds d) as [HM1 HM2].
    apply andb_true_iff. rewrite !Z.leb_le.
    destruct Hd as [<- | Hd]; [lia | ].
    split; [now apply Hm2 | now apply HM2].
Qed.

End DateFilter.

(** Filtering keeps labels distinct, so a filtered frame still meets the
    assumption under which [get_peak_info] is specified. *)
Theorem filter_keeps_labels_distinct :
  forall (df out : DataFrame) (start_date end_date : option Z),
    NoDup (labels df) ->
    filter_by_date_range df start_date end_date "Tanggal" = Returned out ->
    NoDup (labels out).
Proof.
  intros df out start_date end_date Hnd Hout.
  rewrite filter_by_date_range_is_filter in Hout. injection Hout as <-.
  apply NoDup_labels_filter. exact Hnd.
Qed.

Lemma filter_keeps_labels_witness :
  NoDup (labels (filter (fun p => in_date_range (Some 737447) None
                                    (Tanggal (snd p)))
                        frame_two_peaks)).
Proof.
  apply (filter_keeps_labels_distinct frame_two_peaks _ (Some 737447) None).
  - repeat constructor; cbn; intuition discriminate.
  - apply filter_by_date_range_is_filter.
Defined.


(* ================================================================= *)
(** * The peak *)

Section Peak.

Variable f : Row -> Z.

Lemma combine_labels_values (df : DataFrame) :
  combine (labels df) (map f (rows df)) = map (labelled_value f) df.
Proof.
  unfold labels, rows.
  induction df as [ | p rest IH]; cbn; [reflexivity | now rewrite IH].
Qed.

Lemma idxmax_from_cons (b c : Z * Row) (s : list (Z * Z)) :
  idxmax_from (labelled_value f b) (labelled_value f c :: s)
  = if f (snd b) <? f (snd c) then idxmax_from (labelled_value f c) s
    else idxmax_from (labelled_value f b) s.
Proof. reflexivity. Qed.

(** The scan keeps the first row that attains the maximum. *)
Lemma idxmax_from_first_maximum (rest : DataFrame) :
  forall b : Z * Row,
  exists (pre : DataFrame) (x : Z * Row) (post : DataFrame),
    b :: rest = pre ++ x :: post /\
    idxmax_from (labelled_value f b) (map (labelled_value f) rest)
    = labelled_value f x /\
    (forall y, In y pre -> f (snd y) < f (snd x)) /\
    (forall y, In y post -> f (snd y) <= f (snd x)).
Proof.
  induction rest as [ | c rest IH]; intros b.
  - exists [], b, []. cbn. repeat split; contradiction.
  - cbn [map]. rewrite idxmax_from_cons.
    destruct (f (snd b) <? f (snd c)) eqn:E.
    + apply Z.ltb_lt in E.
      destruct (IH c) as (pre & x & post & Heq & Hres & Hpre & Hpost).
      exists (b :: pre), x, post. split; [cbn; now rewrite Heq | ].
      split; [exact Hres | ]. split; [ | exact Hpost].
      intros y [<- | Hy]; [ | now apply Hpre].
      destruct pre as [ | c' pre'].
      * cbn in Heq. injection Heq as ->. exact E.
      * cbn in Heq. injection Heq as <- _.
        specialize (Hpre c (or_introl eq_refl)). lia.
    + apply Z.ltb_ge in E.
      destruct (IH b) as (pre & x & post & Heq & Hres & Hpre & Hpost).
      destruct pre as [ | b' pre'].
      * cbn in Heq. injection Heq as <- <-.
        exists [], b, (c :: rest). split; [reflexivity | ].
        split; [exact Hres | ]. split; [contradiction | ].
        intros y [<- | Hy]; [exact E | now apply Hpost].
      * cbn in Heq. injection Heq as <- ->.
        exists (b :: c :: pre'), x, post. split; [reflexivity | ].
        split; [exact Hres | ]. split; [ | exact Hpost].
        intros y [<- | [<- | Hy]].
        -- apply Hpre. now left.
        -- specialize (Hpre b (or_introl eq_refl)). lia.
        -- apply Hpre. now right.
Qed.

Lemma loc_unique_label (pre post : DataFrame) (x : Z * Row) :
  NoDup (labels (pre ++ x :: post)) ->
  loc (pre ++ x :: post) (fst x) = Some (snd x).
Proof.
  unfold loc, labels. induction pre as [ | y pre IH]; intros Hnd.
  - cbn. now rewrite Z.eqb_refl.
  - cbn in Hnd |- *. inversion Hnd as [ | ? ? Hnotin Hnd']; subst.
    destruct (fst y =? fst x) eqn:E.
    + apply Z.eqb_eq in E. exfalso. apply Hnotin. rewrite E.
      rewrite map_app. apply in_or_app. right. now left.
    + now apply IH.
Qed.

End Peak.

(** C10. On a frame with at least one row, unique labels and the
    requested column, [get_peak_info] returns the date and the value of
    the first row that attains the maximum of the column: every earlier
    row is strictly below it and no later row is above it. *)
Theorem peak_info_is_first_maximum :
  forall (df : DataFrame) (column : string) (f : Row -> Z),
    df <> [] ->
    column_of column = Some f ->
    NoDup (labels df) ->
    exists (before : DataFrame) (label : Z) (peak : Row) (after : DataFrame),
      df = before ++ (label, peak) :: after /\
      get_peak_info df column "Tanggal"
      = Returned (mkPeak (Some (Tanggal peak)) (f peak)) /\
      (forall p, In p before -> f (snd p) < f peak) /\
      (forall p, In p after -> f (snd p) <= f peak).
Proof.
  intros df column f Hne Hcol Hnd.
  destruct df as [ | b rest]; [contradiction | ].
  destruct (idxmax_from_first_maximum f rest b)
    as (pre & [l peak] & post & Heq & Hres & Hpre & Hpost).
  exists pre, l, peak, post. split; [exact Heq | ].
  split; [ | split; assumption].
  unfold get_peak_info. rewrite Hcol.
  rewrite combine_labels_values. cbn [map idxmax].
  rewrite Hres. cbn [labelled_value fst snd].
  rewrite Heq in Hnd |- *.
  pose proof (loc_unique_label pre post (l, peak) Hnd) as Hloc.
  cbn [fst snd] in Hloc. rewrite Hloc.
  reflexivity.
Qed.

Lemma peak_info_witness :
  get_peak_info frame_two_peaks "Kasus_Baru" "Tanggal"
  = Returned (mkPeak (Some 737447) 60).
Proof.
  destruct (peak_info_is_first_maximum frame_two_peaks "Kasus_Baru" Kasus_Baru)
    as (before & l & peak & after & _ & H & _).
  - discriminate.
  - reflexivity.
  - repeat constructor; cbn; intuition discriminate.
  - reflexivity.
Defined.

(* ================================================================= *)
(** * The rolling average *)

Section ExactSums.

Lemma series_sum_cons (x : Z) (xs : list Z) :
  series_sum (x :: xs) = x + series_sum xs.
Proof. reflexivity. Qed.

Lemma abs_sum_nonneg (xs : list Z) : 0 <= series_sum (map Z.abs xs).
Proof.
  induction xs as [ | x rest IH]; [cbn; lia | ].
  cbn [map]. rewrite series_sum_cons. lia.
Qed.

Lemma abs_sum_bounds_sum (xs : list Z) :
  Z.abs (series_sum xs) <= series_sum (map Z.abs xs).
Proof.
  induction xs as [ | x rest IH]; [cbn; lia | ].
  cbn [map]. rewrite !series_sum_cons. lia.
Qed.

Lemma abs_sum_firstn (k : nat) (xs : list Z) :
  series_sum (map Z.abs (firstn k xs)) <= series_sum (map Z.abs xs).
Proof.
  revert xs. induction k as [ | k IH]; intros xs.
  - cbn [firstn map]. apply abs_sum_nonneg.
  - destruct xs as [ | x rest]; [cbn; lia | ].
    cbn [firstn map]. rewrite !series_sum_cons. specialize (IH rest). lia.
Qed.

Lemma abs_sum_skipn (k : nat) (xs : list Z) :
  series_sum (map Z.abs (skipn k xs)) <= series_sum (map Z.abs xs).
Proof.
  revert xs. induction k as [ | k IH]; intros xs; [cbn [skipn]; lia | ].
  destruct xs as [ | x rest]; [cbn; lia | ].
  cbn [skipn map]. rewrite series_sum_cons. specialize (IH rest). lia.
Qed.

Lemma sums_exactly_spec (xs : list Z) :
  sums_exactly xs = true <->
  series_sum (map Z.abs xs) < 2 ^ 53 /\ Z.of_nat (length xs) < 2 ^ 53.
Proof.
  unfold sums_exactly. rewrite andb_true_iff, !Z.ltb_lt. reflexivity.
Qed.

(** The sums over a slice of a column are exact when those over the
    column are. *)
Lemma sums_exactly_firstn (k : nat) (xs : list Z) :
  sums_exactly xs = true -> sums_exactly (firstn k xs) = true.
Proof.
  rewrite !sums_exactly_spec. intros [Hs Hl].
  pose proof (abs_sum_firstn k xs). rewrite length_firstn.
  split; lia.
Qed.

Lemma sums_exactly_skipn (k : nat) (xs : list Z) :
  sums_exactly xs = true -> sums_exactly (skipn k xs) = true.
Proof.
  rewrite !sums_exactly_spec. intros [Hs Hl].
  pose proof (abs_sum_skipn k xs). rewrite length_skipn.
  split; lia.
Qed.

Lemma Prim2SF_not_nan_is_number (v : float) :
  Prim2SF v <> S754_nan -> PrimFloat.is_nan v = false.
Proof.
  intros Hv. unfold PrimFloat.is_nan. rewrite eqb_spec.
  unfold SFeqb, SFcompare.
  destruct (Prim2SF v) as [s | s | | s m e]; [reflexivity | | contradiction | ].
  - destruct s; reflexivity.
  - rewrite Z.compare_refl.
    change (PosDef.Pos.compare_cont Eq m m) with (Pos.compare m m).
    rewrite Pos.compare_refl. destruct s; reflexivity.
Qed.

(** The mean of one value or more, with exact sums, is a number. *)
Lemma exact_mean_is_number (w : list Z) :
  w <> [] -> sums_exactly w = true ->
  PrimFloat.is_nan (exact_mean w) = false.
Proof.
  intros Hne Hex. apply sums_exactly_spec in Hex. destruct Hex as [Hs Hl].
  pose proof (abs_sum_bounds_sum w) as Habs.
  apply Prim2SF_not_nan_is_number. unfold exact_mean.
  rewrite div_spec. unfold SF64div.
  destruct (Prim2SF_Z2float (Z.of_nat (length w))) as [[H0 _] | [_ (s & m & e & Hn)]].
  - lia.
  - destruct w; [contradiction | cbn [length] in H0; lia].
  - rewrite Hn. apply SFdiv_not_nan.
    + intros s'. destruct (Prim2SF_Z2float (series_sum w)) as [[_ H] | [_ (s1 & m1 & e1 & H)]];
        try lia; rewrite H; discriminate.
    + destruct (Prim2SF_Z2float (series_sum w)) as [[_ H] | [_ (s1 & m1 & e1 & H)]];
        try lia; rewrite H; discriminate.
Qed.

End ExactSums.

Section Rolling.

Context {NP : NumPy}.

(** At a position inside the series, a window of size [W >= 1] holds the
    last [min(i + 1, W)] values up to that position. *)
Lemma window_at_available (window : Z) (xs : list Z) (i : nat) :
  1 <= window ->
  (i < length xs)%nat ->
  let k := Nat.min (i + 1) (Z.to_nat window) in
  window_at window xs i = firstn k (skipn (i + 1 - k) xs) /\
  length (window_at window xs i) = k /\
  (1 <= k)%nat.
Proof.
  intros Hw Hi k. unfold window_at.
  assert (Hk : (i + 1 - (i + 1 - Z.to_nat window) = k)%nat) by (subst k; lia).
  assert (Hs : (i + 1 - Z.to_nat window = i + 1 - k)%nat) by (subst k; lia).
  rewrite Hk, Hs. split; [reflexivity | ]. split; [ | subst k; lia].
  rewrite length_firstn, length_skipn. subst k. lia.
Qed.

Lemma rolling_validate_rejects (window : Z) :
  window < 1 ->
  rolling_validate window 1
  = Raised (ValueError "min_periods must be <= window").
Proof.
  intros Hw. unfold rolling_validate. cbn [Z.ltb Z.compare].
  destruct (window <? 1) eqn:E; [reflexivity | ].
  apply Z.ltb_ge in E. lia.
Qed.

Lemma rolling_validate_accepts (window : Z) :
  1 <= window -> rolling_validate window 1 = Returned tt.
Proof.
  intros Hw. unfold rolling_validate. cbn [Z.ltb Z.compare].
  destruct (window <? 1) eqn:E1; [apply Z.ltb_lt in E1; lia | ].
  destruct (window <? 0) eqn:E0; [apply Z.ltb_lt in E0; lia | ].
  reflexivity.
Qed.


End Rolling.


(** A window of 7 over three rows: the running means 10, 15 and 30. *)
Example rolling_average_three_rows :
  calculate_rolling_average (H := numpy_stub) frame_three_rows "Kasus_Baru" 7
  = Returned [Some 10%float; Some 15%float; Some 30%float].
Proof. vm_compute. reflexivity. Qed.


(* ================================================================= *)
(** * The two halves of the last 2D rows *)

Section Halves.

(** [recent = df.tail(2 * D)], then [recent.head(D)] and [recent.tail(D)]:
    the D rows before the last D rows, and the last D rows. *)
Lemma recent_halves {A : Type} (l : list A) (D : Z) :
  0 <= D ->
  D * 2 <= Z.of_nat (length l) ->
  head D (tail (D * 2) l)
  = firstn (Z.to_nat D) (skipn (length l - 2 * Z.to_nat D) l) /\
  tail D (tail (D * 2) l) = skipn (length l - Z.to_nat D) l.
Proof.
  intros HD Hlen. unfold head, tail.
  destruct (Z.eqb_spec D 0) as [-> | Hnz].
  - cbn. rewrite Nat.sub_0_r, skipn_all. split; reflexivity.
  - destruct (Z.eqb_spec (D * 2) 0) as [H0 | _]; [lia | ].
    destruct (Z.ltb_spec 0 (D * 2)) as [_ | H0]; [ | lia].
    destruct (Z.leb_spec 0 D) as [_ | H0]; [ | lia].
    destruct (Z.ltb_spec 0 D) as [_ | H0]; [ | lia].
    replace (Z.to_nat (D * 2)) with (2 * Z.to_nat D)%nat by lia.
    split; [reflexivity | ].
    rewrite skipn_skipn, length_skipn. f_equal. lia.
Qed.

(** Taking rows and then their values is taking values and then the
    same slice of them. *)
Lemma head_map {A B : Type} (f : A -> B) (n : Z) (l : list A) :
  map f (head n l) = head n (map f l).
Proof.
  unfold head. rewrite length_map.
  destruct (0 <=? n); symmetry; apply firstn_map.
Qed.

Lemma tail_map {A B : Type} (f : A -> B) (n : Z) (l : list A) :
  map f (tail n l) = tail n (map f l).
Proof.
  unfold tail. rewrite length_map.
  destruct (n =? 0); [reflexivity | ].
  destruct (0 <? n); symmetry; apply skipn_map.
Qed.

Lemma values_of_head (f : Row -> Z) (df : DataFrame) (n : Z) :
  map f (rows (head n df)) = head n (map f (rows df)).
Proof. unfold rows. now rewrite !head_map. Qed.

Lemma values_of_tail (f : Row -> Z) (df : DataFrame) (n : Z) :
  map f (rows (tail n df)) = tail n (map f (rows df)).
Proof. unfold rows. now rewrite !tail_map. Qed.

Lemma sums_exactly_head (n : Z) (xs : list Z) :
  sums_exactly xs = true -> sums_exactly (head n xs) = true.
Proof.
  intros H. unfold head. destruct (0 <=? n); apply sums_exactly_firstn, H.
Qed.

Lemma sums_exactly_tail (n : Z) (xs : list Z) :
  sums_exactly xs = true -> sums_exactly (tail n xs) = true.
Proof.
  intros H. unfold tail. destruct (n =? 0); [reflexivity | ].
  destruct (0 <? n); apply sums_exactly_skipn, H.
Qed.

Lemma values_of_slice (f : Row -> Z) (df : DataFrame) (a b : nat) :
  map f (rows (firstn a (skipn b df)))
  = firstn a (skipn b (map f (rows df))).
Proof.
  unfold rows. now rewrite !skipn_map, !firstn_map.
Qed.

Lemma values_of_suffix (f : Row -> Z) (df : DataFrame) (b : nat) :
  map f (rows (skipn b df)) = skipn b (map f (rows df)).
Proof.
  unfold rows. now rewrite !skipn_map.
Qed.

Lemma length_values (f : Row -> Z) (df : DataFrame) :
  length (map f (rows df)) = length df.
Proof. unfold rows. now rewrite !length_map. Qed.

End Halves.

(* ================================================================= *)
(** * The R0 estimate *)

(** C3 (as the code has it). With [G = generation_time >= 1]: on a
    frame of fewer than [2G] rows [calculate_r0_estimate] returns 1.0
    whatever the rows hold; otherwise, over the last [2G] values of
    Kasus_Baru, it returns 1.0 when the mean of the first [G] of them is
    [<= 0], and else the ratio of the mean of the last [G] to that mean,
    clamped by [max(0.1, min(10.0, ratio))], a value in [0.1, 10]; the
    exponent [G / G] is 1.0, so the power is the ratio itself. Each mean
    is the sum of the [G] values over [G] wherever their float64 sum is
    exact. *)
Theorem r0_estimate_ratio_of_halves :
  forall (NP : NumPy) (df : DataFrame) (generation_time : Z),
    1 <= generation_time ->
    let G := Z.to_nat generation_time in
    let xs := map Kasus_Baru (rows df) in
    let first_half := firstn G (skipn (length xs - 2 * G) xs) in
    let second_half := skipn (length xs - G) xs in
    let first_mean := mean first_half in
    let second_mean := mean second_half in
    let ratio := (second_mean / first_mean)%float in
    int_truediv generation_time generation_time = Returned 1%float /\
    float_pow ratio 1 = ratio /\
    (Z.of_nat (length df) < 2 * generation_time ->
     calculate_r0_estimate df generation_time = Returned 1%float) /\
    (2 * generation_time <= Z.of_nat (length df) ->
     length first_half = G /\ length second_half = G /\
     (sums_exactly first_half = true ->
      first_mean
      = (Z2float (series_sum first_half) / Z2float generation_time)%float) /\
     (sums_exactly second_half = true ->
      second_mean
      = (Z2float (series_sum second_half) / Z2float generation_time)%float) /\
     ((first_mean <=? 0)%float = true ->
      calculate_r0_estimate df generation_time = Returned 1%float) /\
     ((first_mean <=? 0)%float = false ->
      calculate_r0_estimate df generation_time
      = Returned (py_max 0.1 (py_min 10 ratio)) /\
      (0.1 <=? py_max 0.1 (py_min 10 ratio))%float = true /\
      (py_max 0.1 (py_min 10 ratio) <=? 10)%float = true)).
Proof.
  intros NP df generation_time HG G xs first_half second_half
    first_mean second_mean ratio.
  assert (Hxs : length xs = length df) by apply length_values.
  split; [apply int_truediv_self; lia | ].
  split; [apply float_pow_one | ].
  split.
  - intros Hshort. unfold calculate_r0_estimate.
    destruct (Z.ltb_spec (Z.of_nat (length df)) (generation_time * 2))
      as [_ | Hge]; [reflexivity | lia].
  - intros Hlong.
    assert (Hf : length first_half = G).
    { subst first_half. rewrite length_firstn, length_skipn. lia. }
    assert (Hs : length second_half = G).
    { subst second_half. rewrite length_skipn. lia. }
    split; [exact Hf | ]. split; [exact Hs | ].
    destruct (recent_halves df generation_time) as [Hhead Htail]; [lia | lia | ].
    split.
    { intros Hex1. subst first_mean. unfold mean. rewrite Hex1.
      unfold exact_mean. rewrite Hf. subst G. rewrite Z2Nat.id by lia.
      reflexivity. }
    split.
    { intros Hex2. subst second_mean. unfold mean. rewrite Hex2.
      unfold exact_mean. rewrite Hs. subst G. rewrite Z2Nat.id by lia.
      reflexivity. }
    assert (Hcode :
              calculate_r0_estimate df generation_time
              = if (first_mean <=? 0)%float then Returned 1%float
                else Returned (py_max 0.1 (py_min 10 ratio))).
    { unfold calculate_r0_estimate.
      destruct (Z.ltb_spec (Z.of_nat (length df)) (generation_time * 2))
        as [Hlt | _]; [lia | ].
      unfold getitem. change (column_of "Kasus_Baru") with (Some Kasus_Baru).
      cbn [bind]. rewrite Hhead, Htail.
      rewrite values_of_slice, values_of_suffix.
      fold xs. rewrite <- Hxs. fold G. fold first_half. fold second_half.
      fold first_mean. fold second_mean.
      case (first_mean <=? 0)%float; [reflexivity | ].
      rewrite (int_truediv_self generation_time) by lia. cbn [bind].
      rewrite float_pow_one. reflexivity. }
    split.
    + intros Hle. rewrite Hcode, Hle. reflexivity.
    + intros Hgt. rewrite Hcode, Hgt. split; [reflexivity | ].
      apply clamp_bounds.
Qed.

Lemma r0_estimate_witness :
  calculate_r0_estimate (H := numpy_stub) frame_six_rows 3 = Returned 1.2%float /\
  calculate_r0_estimate (H := numpy_stub) frame_six_rows 4 = Returned 1%float.
Proof.
  pose proof (r0_estimate_ratio_of_halves numpy_stub frame_six_rows 3
                ltac:(lia)) as H3.
  pose proof (r0_estimate_ratio_of_halves numpy_stub frame_six_rows 4
                ltac:(lia)) as H4.
  cbv zeta in H3, H4.
  destruct H3 as (_ & _ & _ & H3). destruct H4 as (_ & _ & H4 & _).
  split.
  - destruct (H3 ltac:(vm_compute; discriminate))
      as (_ & _ & Hfirst & Hsecond & _ & Hr).
    destruct (Hr ltac:(vm_compute; reflexivity)) as (Hv & _).
    rewrite Hv, (Hfirst eq_refl), (Hsecond eq_refl). vm_compute. reflexivity.
  - apply H4. vm_compute. reflexivity.
Defined.

(** C3 as stated fails at [generation_time = 0]: no frame has fewer
    than 0 rows, the two means over no row are NaN, which is not [<= 0],
    and the exponent [0 / 0] raises. *)
Lemma r0_estimate_zero_generation_time :
  calculate_r0_estimate (H := numpy_stub) frame_six_rows 0
  = Raised ZeroDivisionError /\
  calculate_r0_estimate (H := numpy_stub) [] 0 = Raised ZeroDivisionError.
Proof. split; vm_compute; reflexivity. Qed.

(* ================================================================= *)
(** * The trend direction *)

Lemma trend_labels_distinct :
  "naik"%string <> "turun"%string /\
  "naik"%string <> "stabil"%string /\
  "turun"%string <> "stabil"%string.
Proof. repeat split; discriminate. Qed.




(* ================================================================= *)
(** * The doubling time *)

Section Doubling.

Context {NP : NumPy}.

Lemma tail_of_app {A : Type} (before recent : list A) :
  recent <> [] ->
  tail (Z.of_nat (length recent)) (before ++ recent) = recent.
Proof.
  intros Hne. unfold tail.
  destruct recent as [ | x rest]; [contradiction | ].
  destruct (Z.eqb_spec (Z.of_nat (length (x :: rest))) 0) as [H0 | _];
    [cbn [length] in H0; lia | ].
  destruct (Z.ltb_spec 0 (Z.of_nat (length (x :: rest)))) as [_ | H0];
    [ | cbn [length] in H0; lia].
  rewrite Nat2Z.id, length_app.
  replace (length before + length (x :: rest) - length (x :: rest))%nat
    with (length before) by lia.
  rewrite skipn_app, skipn_all, Nat.sub_diag. reflexivity.
Qed.

(** A frame of 14 rows or more ends in a first row, twelve rows and a
    last row. *)
Lemma last_fourteen (df : DataFrame) :
  (14 <= length df)%nat ->
  exists (before middle : DataFrame) (first last : Z * Row),
    df = before ++ first :: middle ++ [last] /\
    length middle = 12%nat /\
    nth_error df (length df - 14) = Some first /\
    nth_error df (length df - 1) = Some last.
Proof.
  intros Hlen.
  pose proof (firstn_skipn (length df - 14) df) as Hsplit.
  assert (Hrecent : length (skipn (length df - 14) df) = 14%nat)
    by (rewrite length_skipn; lia).
  assert (Hbefore : length (firstn (length df - 14) df) = (length df - 14)%nat)
    by (rewrite length_firstn; lia).
  destruct (skipn (length df - 14) df) as [ | first rest] eqn:Hs;
    [discriminate | ].
  assert (Hrest : rest <> []) by (intros ->; discriminate Hrecent).
  destruct (exists_last Hrest) as (middle & last & ->).
  assert (Hmid : length middle = 12%nat).
  { cbn [length] in Hrecent. rewrite length_app in Hrecent.
    cbn [length] in Hrecent. lia. }
  exists (firstn (length df - 14) df), middle, first, last.
  split; [symmetry; exact Hsplit | ]. split; [exact Hmid | ].
  assert (Hnth : forall i,
             nth_error df (length df - 14 + i)
             = nth_error (first :: middle ++ [last]) i).
  { intros i.
    transitivity (nth_error (firstn (length df - 14) df
                             ++ first :: middle ++ [last])
                            (length df - 14 + i));
      [rewrite Hsplit; reflexivity | ].
    rewrite nth_error_app2 by lia. rewrite Hbefore. f_equal. lia. }
  split.
  - rewrite <- (Nat.add_0_r (length df - 14)). rewrite Hnth. reflexivity.
  - replace (length df - 1)%nat with (length df - 14 + 13)%nat by lia.
    rewrite Hnth.
    change (first :: middle ++ [last]) with ((first :: middle) ++ [last]).
    rewrite nth_error_app2 by (cbn [length]; lia).
    cbn [length]. rewrite Hmid. reflexivity.
Qed.

(** The code on a frame whose last 14 rows are
    [first :: middle ++ [last]]. *)
Lemma doubling_time_on_window (before middle : DataFrame) (first last : Z * Row) :
  length middle = 12%nat ->
  calculate_doubling_time (before ++ first :: middle ++ [last])
  = if (Kasus (snd first) <=? 0) || (Kasus (snd last) <=? Kasus (snd first))
    then Returned None
    else if (growth_rate_of (Kasus (snd first)) (Kasus (snd last)) <=? 0)%float
         then Returned None
         else Returned
                (Some (np_log 2
                       / np_log (1 + growth_rate_of (Kasus (snd first))
                                                    (Kasus (snd last))))%float).
Proof.
  intros Hmid. unfold calculate_doubling_time.
  assert (Hlen : length (first :: middle ++ [last]) = 14%nat).
  { cbn [length]. rewrite length_app, Hmid. reflexivity. }
  destruct (Z.ltb_spec (Z.of_nat (length (before ++ first :: middle ++ [last]))) 14)
    as [Hlt | _].
  { rewrite length_app, Hlen in Hlt. lia. }
  assert (Htail : tail 14 (before ++ first :: middle ++ [last])
                  = first :: middle ++ [last]).
  { change 14 with (Z.of_nat 14). rewrite <- Hlen.
    apply tail_of_app. discriminate. }
  rewrite Htail.
  cbn [iloc_first bind snd].
  unfold iloc_last. change (first :: middle ++ [last])
    with ((first :: middle) ++ [last]).
  rewrite rev_app_distr. cbn [rev app bind snd].
  reflexivity.
Qed.

(** [calculate_doubling_time] on a frame whose last 14 rows are
    [first :: middle ++ [last]]: there is no result when
    [start <= 0], [end <= start] or [growth <= 0], and otherwise the
    result is [log(2) / log(1 + growth)]; a frame of fewer than 14 rows
    has no result. *)
Theorem doubling_time_window_and_guards :
  forall (df before middle : DataFrame) (first last : Z * Row),
    ((length df < 14)%nat -> calculate_doubling_time df = Returned None) /\
    (length middle = 12%nat ->
     let frame := before ++ first :: middle ++ [last] in
     let start_cases := Kasus (snd first) in
     let end_cases := Kasus (snd last) in
     let growth := growth_rate_of start_cases end_cases in
     (start_cases <= 0 \/ end_cases <= start_cases \/
      (growth <=? 0)%float = true ->
      calculate_doubling_time frame = Returned None) /\
     (0 < start_cases -> start_cases < end_cases ->
      (growth <=? 0)%float = false ->
      calculate_doubling_time frame
      = Returned (Some (np_log 2 / np_log (1 + growth))%float))).
Proof.
  intros df before middle first last. split.
  - intros Hshort. unfold calculate_doubling_time.
    destruct (Z.ltb_spec (Z.of_nat (length df)) 14) as [_ | Hge];
      [reflexivity | lia].
  - intros Hmid frame start_cases end_cases growth.
    assert (Hcode :
              calculate_doubling_time frame
              = if (start_cases <=? 0) || (end_cases <=? start_cases)
                then Returned None
                else if (growth <=? 0)%float then Returned None
                     else Returned (Some (np_log 2 / np_log (1 + growth))%float)).
    { unfold calculate_doubling_time.
      assert (Hlen : length (first :: middle ++ [last]) = 14%nat).
      { cbn [length]. rewrite length_app, Hmid. reflexivity. }
      destruct (Z.ltb_spec (Z.of_nat (length frame)) 14) as [Hlt | _].
      { subst frame. rewrite length_app, Hlen in Hlt. lia. }
      assert (Htail : tail 14 frame = first :: middle ++ [last]).
      { subst frame. change 14 with (Z.of_nat 14). rewrite <- Hlen.
        apply tail_of_app. discriminate. }
      rewrite Htail.
      cbn [iloc_first bind snd].
      unfold iloc_last. change (first :: middle ++ [last])
        with ((first :: middle) ++ [last]).
      rewrite rev_app_distr. cbn [rev app bind snd].
      reflexivity. }
    split.
    + intros Hnone. rewrite Hcode.
      destruct (Z.leb_spec start_cases 0) as [_ | Hs]; [reflexivity | ].
      destruct (Z.leb_spec end_cases start_cases) as [_ | He]; [reflexivity | ].
      cbn [orb]. destruct Hnone as [H | [H | H]]; [lia | lia | ].
      rewrite H. reflexivity.
    + intros Hs He Hg. rewrite Hcode.
      destruct (Z.leb_spec start_cases 0) as [H | _]; [lia | ].
      destruct (Z.leb_spec end_cases start_cases) as [H | _]; [lia | ].
      cbn [orb]. rewrite Hg. reflexivity.
Qed.

End Doubling.

(** C4. [calculate_doubling_time] looks at the last 14 rows: with
    [start] the cumulative cases of the first of them, [end] those of
    the last and [growth = (end/start)^(1/14) - 1] in binary64, it
    returns [None] exactly when the frame has fewer than 14 rows, or
    [start <= 0], or [end <= start], or [growth <= 0], and otherwise
    [log(2) / log(1 + growth)]. On a 14-row frame whose cumulative cases
    go from 1000 to 2000, with the values glibc's [pow] and [log] return,
    that quotient is 13.999999999999995. *)
Theorem doubling_time_formula_and_undefined_cases :
  forall (NP : NumPy) (df : DataFrame),
    ((length df < 14)%nat -> calculate_doubling_time df = Returned None) /\
    ((14 <= length df)%nat ->
     exists first last : Z * Row,
       nth_error df (length df - 14) = Some first /\
       nth_error df (length df - 1) = Some last /\
       let start_cases := Kasus (snd first) in
       let end_cases := Kasus (snd last) in
       let growth :=
         (float_pow (Z2float end_cases / Z2float start_cases)
                    (Z2float 1 / Z2float 14) - 1)%float in
       (calculate_doubling_time df = Returned None <->
        start_cases <= 0 \/ end_cases <= start_cases \/
        (growth <=? 0)%float = true) /\
       (calculate_doubling_time df <> Returned None ->
        calculate_doubling_time df
        = Returned (Some (np_log 2 / np_log (1 + growth))%float))) /\
    calculate_doubling_time (H := numpy_libm) frame_doubling
    = Returned (Some 13.999999999999995%float).
Proof.
  intros NP df. split; [ | split].
  - intros Hshort. unfold calculate_doubling_time.
    destruct (Z.ltb_spec (Z.of_nat (length df)) 14) as [_ | Hge];
      [reflexivity | lia].
  - intros Hlen.
    destruct (last_fourteen df Hlen)
      as (before & middle & first & last & Hdf & Hmid & Hfirst & Hlast).
    exists first, last. split; [exact Hfirst | ]. split; [exact Hlast | ].
    intros start_cases end_cases growth.
    assert (Hcode :
              calculate_doubling_time df
              = if (start_cases <=? 0) || (end_cases <=? start_cases)
                then Returned None
                else if (growth <=? 0)%float then Returned None
                     else Returned (Some (np_log 2 / np_log (1 + growth))%float)).
    { rewrite Hdf at 1. apply (doubling_time_on_window before middle first last Hmid). }
    rewrite Hcode.
    destruct (Z.leb_spec start_cases 0) as [Hs | Hs].
    { cbn [orb]. split; [split; [intros _; now left | reflexivity] | ].
      intros H. now contradiction H. }
    destruct (Z.leb_spec end_cases start_cases) as [He | He].
    { cbn [orb]. split; [split; [intros _; right; now left | reflexivity] | ].
      intros H. now contradiction H. }
    cbn [orb]. destruct (growth <=? 0)%float eqn:Hg.
    + split; [split; [intros _; right; now right | reflexivity] | ].
      intros H. now contradiction H.
    + split; [ | reflexivity].
      split; [discriminate | ].
      intros [H | [H | H]]; [lia | lia | discriminate].
  - vm_compute. reflexivity.
Qed.

Lemma doubling_time_formula_witness :
  exists first last : Z * Row,
    nth_error frame_doubling 0 = Some first /\
    nth_error frame_doubling 13 = Some last /\
    Kasus (snd first) = 1000 /\ Kasus (snd last) = 2000 /\
    calculate_doubling_time (H := numpy_libm) frame_doubling <> Returned None.
Proof.
  destruct (doubling_time_formula_and_undefined_cases numpy_libm frame_doubling)
    as (_ & Hlong & _).
  destruct (Hlong ltac:(vm_compute; lia))
    as (first & last & Hfirst & Hlast & Hnone & _).
  exists first, last.
  vm_compute in Hfirst. vm_compute in Hlast.
  split; [vm_compute; exact Hfirst | ].
  split; [vm_compute; exact Hlast | ].
  injection Hfirst as <-. injection Hlast as <-.
  split; [reflexivity | ]. split; [reflexivity | ].
  intros Hreturned. apply Hnone in Hreturned.
  destruct Hreturned as [H | [H | H]];
    [vm_compute in H; contradiction H; reflexivity
    | vm_compute in H; contradiction H; reflexivity
    | vm_compute in H; discriminate H].
Defined.

(** Cumulative cases that double exactly, from 1000 to 2000 over 14
    rows, do not give a doubling time of exactly 14.0: the binary64
    quotient of the two logarithms is 13.999999999999995. *)
Lemma doubling_time_of_exact_doubling :
  calculate_doubling_time (H := numpy_libm) frame_doubling
  = Returned (Some 13.999999999999995%float) /\
  calculate_doubling_time (H := numpy_libm) frame_doubling
  <> Returned (Some 14%float).
Proof.
  split; [vm_compute; reflexivity | ].
  intros H.
  apply (f_equal (fun o => match o with
                           | Returned (Some x) => (x =? 14)%float
                           | _ => false
                           end)) in H.
  vm_compute in H. discriminate.
Qed.


(* ================================================================= *)
(** * Ingestion: the result is never empty *)

Section NeverEmpty.

Context {NP : NumPy}.

Lemma length_build_frame (rs : list RawRow) :
  length (build_frame rs) = length rs.
Proof.
  pose proof (build_frame_to_raw rs) as Hraw.
  apply (f_equal (@length RawRow)) in Hraw.
  rewrite length_map, length_sort_values in Hraw.
  unfold rows in Hraw. rewrite length_map in Hraw. exact Hraw.
Qed.

(** A payload whose timeline is not an object, or whose ["cases"] is not
    one, makes [get_historical_df] raise [AttributeError]: line 106 is
    outside the [try]. For every other fetch (nothing, a payload without
    a timeline, a timeline with no parsable date, or real rows whose
    counts fit an int64) it raises nothing and returns a frame with at
    least one row: the 365 rows of the sample, or one row per parsed
    date; in the latter case the global generator is left untouched. *)
Theorem get_historical_df_never_empty :
  forall (g : RandomState) (data : Response),
    (data = MalformedTimeline ->
     get_historical_df g data = (Raised AttributeError, g)) /\
    (data <> MalformedTimeline ->
     (forall timeline,
         data = WithTimeline timeline ->
         forallb counts_fit_int64 (parse_timeline timeline) = true) ->
     exists (df : DataFrame) (g' : RandomState),
       get_historical_df g data = (Returned df, g') /\
       (1 <= length df)%nat /\
       (length df = 365%nat \/
        exists timeline,
          data = WithTimeline timeline /\
          length df = length (parse_timeline timeline) /\ g' = g)).
Proof.
  intros g data. split; [intros ->; reflexivity | ].
  intros Hwell _.
  pose proof (sample_length g) as Hlen.
  destruct data as [ | | | timeline]; unfold get_historical_df.
  - destruct (_get_sample_historical_df g) as [df g2]. cbn [fst] in Hlen.
    exists df, g2. rewrite Hlen. repeat split; [lia | now left].
  - destruct (_get_sample_historical_df g) as [df g2]. cbn [fst] in Hlen.
    exists df, g2. rewrite Hlen. repeat split; [lia | now left].
  - contradiction.
  - destruct (parse_timeline timeline) as [ | r rest] eqn:Hp.
    + destruct (_get_sample_historical_df g) as [df g2]. cbn [fst] in Hlen.
      exists df, g2. rewrite Hlen. repeat split; [lia | now left].
    + exists (build_frame (r :: rest)), g.
      rewrite length_build_frame. cbn [length].
      repeat split; [lia | ]. right. exists timeline.
      rewrite Hp. repeat split.
Qed.

End NeverEmpty.

(* ================================================================= *)
(** * The date filter: composition and order *)

Section FilterAlgebra.

Lemma in_date_range_meet (s1 e1 s2 e2 : option Z) (d : Z) :
  in_date_range s1 e1 d && in_date_range s2 e2 d
  = in_date_range (later_start s1 s2) (earlier_end e1 e2) d.
Proof.
  unfold in_date_range, later_start, earlier_end.
  destruct s1 as [a | ], s2 as [b | ], e1 as [x | ], e2 as [y | ]; cbn;
    repeat match goal with
           | |- context [?p <=? ?q] => destruct (Z.leb_spec p q)
           end; cbn; try reflexivity; lia.
Qed.

(** Filtering a filtered frame is filtering once with the later start and
    the earlier end; in particular filtering twice with the same bounds
    changes nothing. *)
Theorem filter_by_date_range_composes :
  forall (df : DataFrame) (s1 e1 s2 e2 : option Z),
  exists mid : DataFrame,
    filter_by_date_range df s1 e1 "Tanggal" = Returned mid /\
    filter_by_date_range mid s2 e2 "Tanggal"
    = filter_by_date_range df (later_start s1 s2) (earlier_end e1 e2) "Tanggal" /\
    filter_by_date_range mid s1 e1 "Tanggal" = Returned mid.
Proof.
  intros df s1 e1 s2 e2. eexists.
  split; [apply filter_by_date_range_is_filter | ].
  rewrite !filter_by_date_range_is_filter, !filter_twice. split.
  - apply f_equal, filter_ext. intros p. apply in_date_range_meet.
  - apply f_equal, filter_ext. intros p.
    destruct (in_date_range s1 e1 (Tanggal (snd p))); reflexivity.
Qed.

Lemma StronglySorted_filter_map {A : Type} (key : A -> Z) (keep : A -> bool)
  (l : list A) :
  StronglySorted Z.le (map key l) ->
  StronglySorted Z.le (map key (filter keep l)).
Proof.
  induction l as [ | x rest IH]; cbn; intros Hs; [constructor | ].
  inversion Hs as [ | ? ? Hrest Hall]; subst.
  destruct (keep x); cbn; [ | now apply IH].
  constructor; [now apply IH | ].
  rewrite Forall_forall in Hall |- *. intros k Hk. apply Hall.
  rewrite in_map_iff in Hk |- *. destruct Hk as (y & Hy & Hin).
  exists y. split; [exact Hy | ]. apply filter_In in Hin. tauto.
Qed.

(** A frame in ascending order of date stays in ascending order of date
    when it is filtered. *)
Theorem filter_keeps_date_order :
  forall (df out : DataFrame) (start_date end_date : option Z),
    Sorted Z.le (map Tanggal (rows df)) ->
    filter_by_date_range df start_date end_date "Tanggal" = Returned out ->
    Sorted Z.le (map Tanggal (rows out)).
Proof.
  intros df out start_date end_date Hs Hout.
  rewrite filter_by_date_range_is_filter in Hout. injection Hout as <-.
  apply StronglySorted_Sorted. unfold rows in *. rewrite map_map in *.
  apply StronglySorted_filter_map.
  apply Sorted_StronglySorted; [ | exact Hs].
  intros a b c Hab Hbc. lia.
Qed.

Lemma filter_keeps_date_order_witness :
  Sorted Z.le
    (map Tanggal
       (rows (filter (fun p => in_date_range (Some 737447) (Some 737448)
                                 (Tanggal (snd p)))
                     frame_two_peaks))).
Proof.
  apply (filter_keeps_date_order frame_two_peaks _ (Some 737447) (Some 737448)).
  - repeat constructor; cbn; lia.
  - apply filter_by_date_range_is_filter.
Defined.

End FilterAlgebra.

(* ================================================================= *)
(** * The peak: edge cases *)

Section PeakTotal.

(** On a frame with unique labels [get_peak_info] never raises. An empty
    frame or an unknown column gives the default [{date: None, value: 0}];
    otherwise the value is the maximum of the column, attained by some
    row, and the date is missing exactly when the date column is unknown. *)
Theorem get_peak_info_never_raises :
  forall (df : DataFrame) (column date_column : string),
    NoDup (labels df) ->
    exists info : PeakInfo,
      get_peak_info df column date_column = Returned info /\
      (df = [] \/ column_of column = None -> info = mkPeak None 0) /\
      (forall f, df <> [] -> column_of column = Some f ->
         (forall p, In p df -> f (snd p) <= peak_value info) /\
         (exists p, In p df /\ f (snd p) = peak_value info /\
                    peak_date info
                    = option_map (fun d => d (snd p)) (column_of date_column))).
Proof.
  intros df column date_column Hnd.
  destruct df as [ | b rest].
  - exists (mkPeak None 0). split; [reflexivity | ].
    split; [reflexivity | ]. intros f Hne. contradiction.
  - destruct (column_of column) as [f | ] eqn:Hcol.
    + destruct (idxmax_from_first_maximum f rest b)
        as (pre & [l peak] & post & Heq & Hres & Hpre & Hpost).
      pose proof Hnd as Hnd'. rewrite Heq in Hnd'.
      pose proof (loc_unique_label pre post (l, peak) Hnd') as Hloc.
      cbn [fst snd] in Hloc, Hpre, Hpost.
      eexists. split.
      * unfold get_peak_info. rewrite Hcol.
        rewrite combine_labels_values. cbn [map idxmax].
        rewrite Hres. cbn [labelled_value fst]. rewrite Heq, Hloc.
        reflexivity.
      * split; [intros [H | H]; discriminate | ].
        intros f' _ Hf'. injection Hf' as <-. cbn [peak_value peak_date].
        split.
        -- intros p Hp. rewrite Heq in Hp. apply in_app_or in Hp.
           destruct Hp as [Hp | [<- | Hp]].
           ++ specialize (Hpre p Hp). lia.
           ++ cbn. lia.
           ++ apply Hpost. exact Hp.
        -- exists (l, peak). rewrite Heq. split.
           ++ apply in_or_app. right. now left.
           ++ split; [reflexivity | ].
              cbn [snd]. destruct (column_of date_column); reflexivity.
    + exists (mkPeak None 0). split.
      * unfold get_peak_info. rewrite Hcol. reflexivity.
      * split; [reflexivity | ]. intros f _ Hf. discriminate.
Qed.

Lemma get_peak_info_never_raises_witness :
  exists info : PeakInfo,
    get_peak_info frame_two_peaks "Kasus_Baru" "no such column"
    = Returned info.
Proof.
  destruct (get_peak_info_never_raises frame_two_peaks "Kasus_Baru"
              "no such column") as (info & H & _).
  - repeat constructor; cbn; intuition discriminate.
  - exists info. exact H.
Defined.

End PeakTotal.

(* ================================================================= *)
(** * R0 and trend: every outcome *)

Section Outcomes.

Context {NP : NumPy}.

(** With [generation_time >= 1], [calculate_r0_estimate] raises nothing
    and its result always lies in [0.1, 10]: the neutral 1.0 is inside the
    interval the ratio is clamped into. *)
Theorem r0_estimate_always_in_range :
  forall (df : DataFrame) (generation_time : Z),
    1 <= generation_time ->
    exists r0 : float,
      calculate_r0_estimate df generation_time = Returned r0 /\
      (0.1 <=? r0)%float = true /\ (r0 <=? 10)%float = true.
Proof.
  intros df generation_time HG. unfold calculate_r0_estimate.
  destruct (Z.of_nat (length df) <? generation_time * 2).
  - exists 1%float. repeat split.
  - unfold getitem. change (column_of "Kasus_Baru") with (Some Kasus_Baru).
    cbn [bind].
    match goal with
    | |- context [if ?c then _ else _] => destruct c
    end.
    + exists 1%float. repeat split.
    + rewrite (int_truediv_self generation_time) by lia. cbn [bind].
      eexists. split; [reflexivity | ]. apply clamp_bounds.
Qed.

End Outcomes.

Lemma r0_estimate_always_in_range_witness :
  exists r0 : float,
    calculate_r0_estimate (H := numpy_stub) frame_ten_rows 3 = Returned r0 /\
    (0.1 <=? r0)%float = true /\ (r0 <=? 10)%float = true.
Proof.
  apply (@r0_estimate_always_in_range numpy_stub frame_ten_rows 3). lia.
Defined.

(** [get_trend_direction] has five outcomes. A frame shorter than
    [2 * days] gives "stabil" even for an unknown column. A frame that is
    long enough gives [KeyError] for an unknown column, one of "naik",
    "turun", "stabil" for a column of counts, and for the column of dates
    [TypeError] as soon as [days >= 1] (and never anything but that or a
    label). Each of the three labels has an icon of its own in
    [get_trend_icon]; any other string gets the icon of "stabil". *)
Theorem trend_direction_outcomes :
  forall (NP : NumPy) (df : DataFrame) (column : string) (days : Z),
    (Z.of_nat (length df) < days * 2 ->
     get_trend_direction df column days = Returned "stabil"%string) /\
    (days * 2 <= Z.of_nat (length df) ->
     column_of column = None ->
     get_trend_direction df column days = Raised (KeyError column)) /\
    (days * 2 <= Z.of_nat (length df) ->
     count_column_of column <> None ->
     exists direction : string,
       get_trend_direction df column days = Returned direction /\
       (direction = "naik" \/ direction = "turun" \/ direction = "stabil")%string) /\
    (days * 2 <= Z.of_nat (length df) ->
     column_of column <> None ->
     get_trend_direction df column days = Raised TypeError \/
     exists direction : string,
       get_trend_direction df column days = Returned direction /\
       (direction = "naik" \/ direction = "turun" \/ direction = "stabil")%string) /\
    (1 <= days -> days * 2 <= Z.of_nat (length df) ->
     get_trend_direction df "Tanggal" days = Raised TypeError) /\
    (get_trend_icon "naik" <> get_trend_icon "turun" /\
     get_trend_icon "naik" <> get_trend_icon "stabil" /\
     get_trend_icon "turun" <> get_trend_icon "stabil" /\
     forall other : string,
       other <> "naik"%string -> other <> "turun"%string ->
       get_trend_icon other = get_trend_icon "stabil").
Proof.
  intros NP df column days.
  assert (Hknown : days * 2 <= Z.of_nat (length df) ->
                   column_of column <> None ->
                   get_trend_direction df column days = Raised TypeError \/
                   exists direction : string,
                     get_trend_direction df column days = Returned direction /\
                     (direction = "naik" \/ direction = "turun"
                      \/ direction = "stabil")%string).
  { intros Hlong Hcol. unfold get_trend_direction.
    destruct (Z.ltb_spec (Z.of_nat (length df)) (days * 2)); [lia | ].
    unfold getitem. destruct (column_of column) as [f | ]; [ | contradiction].
    cbn [bind]. destruct (is_datetime_column column).
    - destruct (map f (rows (head days (tail (days * 2) df))));
        [right; eexists; split; [reflexivity | tauto] | left; reflexivity].
    - right.
      repeat match goal with
             | |- context [if ?c then _ else _] => destruct c
             end; eexists; (split; [reflexivity | ]); tauto. }
  split; [ | split; [ | split; [ | split; [exact Hknown | split ] ] ] ].
  - intros Hshort. unfold get_trend_direction.
    destruct (Z.ltb_spec (Z.of_nat (length df)) (days * 2)); [reflexivity | lia].
  - intros Hlong Hcol. unfold get_trend_direction.
    destruct (Z.ltb_spec (Z.of_nat (length df)) (days * 2)); [lia | ].
    unfold getitem. rewrite Hcol. reflexivity.
  - intros Hlong Hcol. unfold count_column_of in Hcol.
    unfold get_trend_direction.
    destruct (Z.ltb_spec (Z.of_nat (length df)) (days * 2)); [lia | ].
    unfold getitem.
    destruct (is_datetime_column column); [contradiction | ].
    destruct (column_of column) as [f | ]; [ | contradiction].
    cbn [bind].
    repeat match goal with
           | |- context [if ?c then _ else _] => destruct c
           end; eexists; (split; [reflexivity | ]); tauto.
  - intros Hdays Hlong. unfold get_trend_direction.
    destruct (Z.ltb_spec (Z.of_nat (length df)) (days * 2)); [lia | ].
    unfold getitem. change (column_of "Tanggal") with (Some Tanggal).
    cbn [bind]. change (is_datetime_column "Tanggal") with true.
    destruct (recent_halves df days) as [Hhead _]; [lia | lia | ].
    assert (Hlen : length (map Tanggal (rows (head days (tail (days * 2) df))))
                   = Z.to_nat days).
    { rewrite length_values, Hhead, length_firstn, length_skipn. lia. }
    destruct (map Tanggal (rows (head days (tail (days * 2) df))));
      [cbn [length] in Hlen; lia | reflexivity].
  - repeat split; try discriminate.
    intros other Hn Ht. unfold get_trend_icon.
    destruct (String.eqb_spec other "naik"); [contradiction | ].
    destruct (String.eqb_spec other "turun"); [contradiction | ].
    destruct (String.eqb other "stabil"); reflexivity.
Qed.

(* ================================================================= *)
(** * Ingestion: which rows are parsed, and their dates *)

Section Parsing.

Lemma dict_get_missing (d : JsonObject) (k : string) (default : Z) :
  ~ In k (keys d) -> dict_get d k default = default.
Proof.
  unfold keys. induction d as [ | [k' v] rest IH]; cbn; intros Hnot;
    [reflexivity | ].
  destruct (String.eqb_spec k k') as [-> | _]; [exfalso; auto | ].
  apply IH. intros Hin. apply Hnot. now right.
Qed.

Lemma digit_range (c : ascii) (d : Z) : digit c = Some d -> 0 <= d <= 9.
Proof.
  unfold digit.
  destruct ((48 <=? Z.of_nat (nat_of_ascii c)) && (Z.of_nat (nat_of_ascii c) <=? 57))
    eqn:E; [ | discriminate].
  apply andb_true_iff in E. destruct E as [E1 E2].
  apply Z.leb_le in E1, E2. intros H. injection H as <-. lia.
Qed.

Lemma decimal_digit_range (cp d : Z) :
  decimal_digit cp = Some d -> 0 <= d <= 9.
Proof.
  unfold decimal_digit.
  destruct (find _ decimal_zeros) as [zero | ] eqn:Hfind; [ | discriminate].
  apply find_some in Hfind. destruct Hfind as [_ Hin].
  apply andb_true_iff in Hin. destruct Hin as [H1 H2].
  apply Z.leb_le in H1. apply Z.ltb_lt in H2.
  intros H. injection H as <-. lia.
Qed.

Lemma directive_y_window (s : string) (y : Z) :
  directive_y s = Some y -> 1969 <= y <= 2068.
Proof.
  unfold directive_y.
  destruct (code_points s) as [[ | a [ | b [ | ? ?]]] | ]; try discriminate.
  destruct (decimal_digit a) as [p | ] eqn:Ha; [ | discriminate].
  destruct (decimal_digit b) as [q | ] eqn:Hb; [ | discriminate].
  apply decimal_digit_range in Ha. apply decimal_digit_range in Hb.
  intros H.
  assert (Hy : (if 10 * p + q <=? 68 then 2000 + (10 * p + q)
                else 1900 + (10 * p + q)) = y) by congruence.
  destruct (Z.leb_spec (10 * p + q) 68); lia.
Qed.

Lemma days_before_year_mono (y y' : Z) :
  y <= y' -> days_before_year y <= days_before_year y'.
Proof.
  intros H. unfold days_before_year.
  assert (H4 : (y - 1) / 4 <= (y' - 1) / 4) by (apply Z.div_le_mono; lia).
  assert (H400 : (y - 1) / 400 <= (y' - 1) / 400) by (apply Z.div_le_mono; lia).
  assert (H100 : (y' - 1) / 100 - (y - 1) / 100 <= y' - y).
  { pose proof (Z.div_mod (y' - 1) 100 ltac:(lia)).
    pose proof (Z.div_mod (y - 1) 100 ltac:(lia)).
    pose proof (Z.mod_pos_bound (y' - 1) 100 ltac:(lia)).
    pose proof (Z.mod_pos_bound (y - 1) 100 ltac:(lia)).
    lia. }
  lia.
Qed.

Lemma make_date_within_year (y m d o : Z) :
  make_date y m d = Some o ->
  days_before_year y + 1 <= o <= days_before_year y + 366.
Proof.
  unfold make_date.
  destruct ((1 <=? m) && (m <=? 12) && (1 <=? d) && (d <=? days_in_month y m))
    eqn:E; [ | discriminate].
  repeat (apply andb_true_iff in E; destruct E as [E ?]).
  repeat match goal with H : (_ <=? _) = true |- _ => apply Z.leb_le in H end.
  intros Ho. injection Ho as <-. unfold ymd2ord.
  assert (Hm : m = 1 \/ m = 2 \/ m = 3 \/ m = 4 \/ m = 5 \/ m = 6 \/
               m = 7 \/ m = 8 \/ m = 9 \/ m = 10 \/ m = 11 \/ m = 12) by lia.
  unfold days_before_month, days_in_month in *.
  generalize dependent (days_before_year y). generalize dependent (is_leap y).
  intros leap Hd base.
  repeat (destruct Hm as [-> | Hm]); try subst m;
    cbn in Hd; destruct leap;
    match goal with
    | |- context [fold_left ?f ?l ?a] =>
        let v := eval vm_compute in (fold_left f l a) in
        change (fold_left f l a) with v
    end; lia.
Qed.

(** The format ["%m/%d/%y"] reads a two-digit year as 1969..2068: every
    date the ingestion accepts, and so every date of the frame it builds,
    lies between 1 January 1969 and 31 December 2068. *)
Theorem ingested_dates_within_window :
  forall (timeline : Timeline) (r : Row),
    In r (rows (build_frame (parse_timeline timeline))) ->
    ymd2ord 1969 1 1 <= Tanggal r <= ymd2ord 2068 12 31.
Proof.
  intros timeline r Hin.
  assert (Hraw : In (to_raw r) (parse_timeline timeline)).
  { apply (Permutation_in _ (sort_values_perm raw_Tanggal _)).
    rewrite <- build_frame_to_raw. apply in_map. exact Hin. }
  unfold parse_timeline in Hraw. apply in_flat_map in Hraw.
  destruct Hraw as (key & _ & Hrow).
  destruct (strptime_mdy key) as [dt | ] eqn:Hdate; [ | contradiction].
  destruct (member_get (tl_deaths timeline) key) as [deaths | ];
    [ | contradiction].
  destruct (member_get (tl_recovered timeline) key) as [recovered | ];
    [ | contradiction].
  destruct Hrow as [Hrow | []].
  apply (f_equal raw_Tanggal) in Hrow. cbn in Hrow. subst dt.
  unfold strptime_mdy in Hdate.
  destruct (split_on "/" key) as [ | sm [ | sd [ | sy [ | ? ?]]]];
    try discriminate.
  destruct (directive_m sm) as [m | ]; [ | discriminate].
  destruct (directive_d sd) as [d | ]; [ | discriminate].
  destruct (directive_y sy) as [y | ] eqn:Hy; [ | discriminate].
  apply directive_y_window in Hy.
  apply make_date_within_year in Hdate.
  pose proof (days_before_year_mono 1969 y ltac:(lia)) as Hlo.
  pose proof (days_before_year_mono y 2068 ltac:(lia)) as Hhi.
  change (ymd2ord 1969 1 1) with (days_before_year 1969 + 1).
  change (ymd2ord 2068 12 31) with (days_before_year 2068 + 366).
  lia.
Qed.

Lemma ingested_dates_within_window_witness :
  ymd2ord 1969 1 1 <= 737446 <= ymd2ord 2068 12 31.
Proof.
  apply (ingested_dates_within_window timeline_small
           (mkRow 737446 2 0 0 0 0 0)).
  vm_compute. left. reflexivity.
Defined.

End Parsing.

(* ================================================================= *)
(** * Descriptive statistics *)

Section Statistics.

Context {NP : NumPy} {PR : PandasReductions}.

Lemma series_sum_bounds (xs : list Z) (lo hi : Z) :
  (forall x, In x xs -> lo <= x <= hi) ->
  Z.of_nat (length xs) * lo <= series_sum xs <= Z.of_nat (length xs) * hi.
Proof.
  induction xs as [ | x rest IH]; intros Hb; [cbn; lia | ].
  assert (Hx : lo <= x <= hi) by (apply Hb; now left).
  assert (Hrest : Z.of_nat (length rest) * lo <= series_sum rest
                  <= Z.of_nat (length rest) * hi).
  { apply IH. intros y Hy. apply Hb. now right. }
  cbn [length series_sum fold_right]. fold (series_sum rest). lia.
Qed.

Lemma fold_min_attained (l : list Z) :
  forall a, fold_left Z.min l a = a \/ In (fold_left Z.min l a) l.
Proof.
  induction l as [ | y rest IH]; intros a; cbn; [now left | ].
  destruct (IH (Z.min a y)) as [H | H]; [ | right; now right].
  rewrite H. destruct (Z.min_spec a y) as [[_ ->] | [_ ->]];
    [now left | right; now left].
Qed.

Lemma fold_max_attained (l : list Z) :
  forall a, fold_left Z.max l a = a \/ In (fold_left Z.max l a) l.
Proof.
  induction l as [ | y rest IH]; intros a; cbn; [now left | ].
  destruct (IH (Z.max a y)) as [H | H]; [ | right; now right].
  rewrite H. destruct (Z.max_spec a y) as [[_ ->] | [_ ->]];
    [right; now left | now left].
Qed.

(** [calculate_statistics] raises only on the column of dates, whose
    [sum()] is a [TypeError]. An empty frame or an unknown column gives
    the empty dict. For a column of counts the dict has one count per
    row, [min] and [max] are values of the column that bound every
    value, and [sum] is the int64 sum of the column: when the exact sum
    fits int64 it is that sum and lies between [count * min] and
    [count * max], and when the float64 sums are exact [mean] is the sum
    over the count. *)
Theorem calculate_statistics_invariants :
  forall (df : DataFrame) (column : string),
    (df = [] \/ column_of column = None ->
     calculate_statistics df column = Returned None) /\
    (df <> [] -> calculate_statistics df "Tanggal" = Raised TypeError) /\
    (forall f, df <> [] -> count_column_of column = Some f ->
     exists st : Statistics,
       calculate_statistics df column = Returned (Some st) /\
       stat_count st = Z.of_nat (length df) /\ 1 <= stat_count st /\
       (forall p, In p df -> stat_min st <= f (snd p) <= stat_max st) /\
       (exists p, In p df /\ f (snd p) = stat_min st) /\
       (exists p, In p df /\ f (snd p) = stat_max st) /\
       stat_sum st = int64_wrap (series_sum (map f (rows df))) /\
       (- 2 ^ 63 <= series_sum (map f (rows df)) < 2 ^ 63 ->
        stat_sum st = series_sum (map f (rows df)) /\
        stat_count st * stat_min st <= stat_sum st
        <= stat_count st * stat_max st) /\
       (sums_exactly (map f (rows df)) = true ->
        stat_mean st
        = (Z2float (series_sum (map f (rows df)))
           / Z2float (Z.of_nat (length df)))%float)).
Proof.
  intros df column. split; [ | split].
  - intros [-> | Hcol]; [reflexivity | ].
    unfold calculate_statistics. rewrite Hcol. destruct df; reflexivity.
  - intros Hne. destruct df as [ | p0 rest]; [contradiction | ]. reflexivity.
  - intros f Hne Hcount. unfold count_column_of in Hcount.
    destruct (is_datetime_column column) eqn:Hdate; [discriminate | ].
    rename Hcount into Hcol.
    destruct df as [ | p0 rest]; [contradiction | ].
    unfold calculate_statistics. rewrite Hcol.
    set (series := map f (rows (p0 :: rest))).
    assert (Hseries : series = f (snd p0) :: map f (rows rest)) by reflexivity.
    assert (Hlen : length series = length (p0 :: rest)).
    { subst series. apply length_values. }
    assert (Hin : forall x, In x series <-> exists p, In p (p0 :: rest) /\ f (snd p) = x).
    { intros x. subst series. unfold rows. rewrite map_map, in_map_iff.
      split; intros (p & H1 & H2); exists p; tauto. }
    rewrite Hseries. rewrite <- Hseries. rewrite Hdate.
    destruct (fold_min_le (map f (rows rest)) (f (snd p0))) as [Hm1 Hm2].
    destruct (fold_max_ge (map f (rows rest)) (f (snd p0))) as [HM1 HM2].
    set (lo := fold_left Z.min (map f (rows rest)) (f (snd p0))) in *.
    set (hi := fold_left Z.max (map f (rows rest)) (f (snd p0))) in *.
    assert (Hbound : forall x, In x series -> lo <= x <= hi).
    { intros x Hx. rewrite Hseries in Hx. destruct Hx as [<- | Hx].
      - lia.
      - split; [now apply Hm2 | now apply HM2]. }
    eexists. split; [reflexivity | ].
    cbn [stat_count stat_min stat_max stat_sum stat_mean].
    rewrite Hlen. split; [reflexivity | ]. split; [cbn [length]; lia | ].
    split.
    { intros p Hp. apply Hbound. apply Hin. exists p. tauto. }
    split.
    { apply Hin. rewrite Hseries.
      destruct (fold_min_attained (map f (rows rest)) (f (snd p0))) as [H | H];
        fold lo in H; [left; now symmetry | right; exact H]. }
    split.
    { apply Hin. rewrite Hseries.
      destruct (fold_max_attained (map f (rows rest)) (f (snd p0))) as [H | H];
        fold hi in H; [left; now symmetry | right; exact H]. }
    split; [reflexivity | ]. split.
    { intros Hfit. rewrite (int64_wrap_fits _ Hfit).
      split; [reflexivity | ].
      rewrite <- Hlen. apply series_sum_bounds. exact Hbound. }
    intros Hex. unfold mean. rewrite Hex. unfold exact_mean.
    rewrite Hlen. reflexivity.
Qed.

End Statistics.

(* ================================================================= *)
(** * Formatting an integer with thousands separators *)

Section FormatNumber.

Context {FS : FormatSpec}.

Lemma string_of_uint_digits (u : Decimal.uint) :
  Forall (fun c => is_digit c = true)
         (list_ascii_of_string (DecimalString.NilEmpty.string_of_uint u)).
Proof.
  induction u; cbn; constructor; try reflexivity; assumption.
Qed.

Lemma decimal_digits_digits (z : Z) :
  Forall (fun c => is_digit c = true) (decimal_digits z).
Proof.
  unfold decimal_digits.
  destruct (BinInt.Z.to_int z); apply string_of_uint_digits.
Qed.

Lemma decimal_digits_nonempty (z : Z) : decimal_digits z <> [].
Proof.
  unfold decimal_digits. destruct z as [ | p | p]; cbn; try discriminate;
    pose proof (DecimalPos.Unsigned.to_uint_nonnil p) as Hn;
    destruct (Pos.to_uint p); try contradiction; discriminate.
Qed.

Lemma decimal_digits_str (z : Z) :
  (if z <? 0 then ["-"%char] else []) ++ decimal_digits z
  = list_ascii_of_string
      (DecimalString.NilEmpty.string_of_int (BinInt.Z.to_int z)).
Proof. destruct z; reflexivity. Qed.

Lemma digit_not_separator (c : ascii) :
  is_digit c = true ->
  c <> ","%char /\ c <> "."%char /\
  (if Ascii.eqb c "," then "."%char else c) = c.
Proof.
  intros Hd. repeat split.
  - intros ->. discriminate.
  - intros ->. discriminate.
  - destruct (Ascii.eqb_spec c ","); [subst; discriminate | reflexivity].
Qed.

(** Dropping the separators gives the digits back. *)
Lemma group_thousands_drop (ds : list ascii) :
  Forall (fun c => is_digit c = true) ds ->
  forall k,
    filter (fun c => negb (Ascii.eqb c "."))
           (replace_comma (group_thousands ds k))
    = ds.
Proof.
  induction 1 as [ | d rest Hd _ IH]; intros k; [reflexivity | ].
  destruct (digit_not_separator d Hd) as (_ & Hdot & Hrepl).
  assert (Hkeep : negb (Ascii.eqb d ".") = true).
  { destruct (Ascii.eqb_spec d "."); [contradiction | reflexivity]. }
  cbn [group_thousands]. destruct (k =? 3)%nat;
    cbn [replace_comma map filter]; fold (replace_comma (group_thousands rest 1));
    fold (replace_comma (group_thousands rest (S k)));
    rewrite ?Hrepl, ?Hkeep; cbn; rewrite ?Hkeep; f_equal; apply IH.
Qed.

(** Counting from the least significant digit, a separator stands at
    every fourth position and digits everywhere else. *)
Lemma group_thousands_positions (ds : list ascii) :
  Forall (fun c => is_digit c = true) ds ->
  forall (k i : nat) (c : ascii),
    (k <= 3)%nat ->
    nth_error (replace_comma (group_thousands ds k)) i = Some c ->
    if ((i + k) mod 4 =? 3)%nat then c = "."%char else is_digit c = true.
Proof.
  induction 1 as [ | d rest Hd _ IH]; intros k i c Hk Hc.
  - destruct i; discriminate.
  - destruct (digit_not_separator d Hd) as (_ & _ & Hrepl).
    cbn [group_thousands] in Hc. destruct (Nat.eqb_spec k 3) as [-> | Hk3].
    + cbn [replace_comma map] in Hc.
      fold (replace_comma (group_thousands rest 1)) in Hc.
      rewrite Hrepl in Hc.
      destruct i as [ | [ | i]]; cbn [nth_error] in Hc.
      * injection Hc as <-. reflexivity.
      * injection Hc as <-. exact Hd.
      * specialize (IH 1%nat i c ltac:(lia) Hc).
        replace ((S (S i) + 3) mod 4)%nat with ((i + 1) mod 4)%nat; [exact IH | ].
        replace (S (S i) + 3)%nat with ((i + 1) + 1 * 4)%nat by lia.
        now rewrite Nat.Div0.mod_add.
    + cbn [replace_comma map] in Hc.
      fold (replace_comma (group_thousands rest (S k))) in Hc.
      rewrite Hrepl in Hc.
      destruct i as [ | i]; cbn [nth_error] in Hc.
      * injection Hc as <-.
        replace ((0 + k) mod 4)%nat with k by (symmetry; apply Nat.mod_small; lia).
        destruct (Nat.eqb_spec k 3); [contradiction | exact Hd].
      * specialize (IH (S k) i c ltac:(lia) Hc).
        replace (S i + k)%nat with (i + S k)%nat by lia. exact IH.
Qed.

(** The most significant position holds a digit, never a separator. *)
Lemma group_thousands_last (ds : list ascii) :
  Forall (fun c => is_digit c = true) ds ->
  ds <> [] ->
  forall k d0, is_digit (last (replace_comma (group_thousands ds k)) d0) = true.
Proof.
  induction 1 as [ | d rest Hd Hrest IH]; intros Hne k d0; [contradiction | ].
  destruct (digit_not_separator d Hd) as (_ & _ & Hrepl).
  assert (Hnext : forall k',
             rest <> [] -> replace_comma (group_thousands rest k') <> []).
  { intros k' Hr. destruct rest; [contradiction | ].
    cbn. destruct (k' =? 3)%nat; discriminate. }
  cbn [group_thousands]. destruct (k =? 3)%nat;
    cbn [replace_comma map]; rewrite Hrepl;
    fold (replace_comma (group_thousands rest 1));
    fold (replace_comma (group_thousands rest (S k)));
    destruct rest as [ | d' rest'].
  - exact Hd.
  - specialize (Hnext 1%nat ltac:(discriminate)).
    specialize (IH ltac:(discriminate) 1%nat d0).
    destruct (replace_comma (group_thousands (d' :: rest') 1)) eqn:E;
      [contradiction | ].
    exact IH.
  - exact Hd.
  - specialize (Hnext (S k) ltac:(discriminate)).
    specialize (IH ltac:(discriminate) (S k) d0).
    destruct (replace_comma (group_thousands (d' :: rest') (S k))) eqn:E;
      [contradiction | ].
    exact IH.
Qed.


End FormatNumber.


(* ================================================================= *)
(** * Current totals and the rates computed from them *)

Section CurrentStatsRates.

Context {CK : Clock}.

(** [get_current_stats] can fail only while it converts a non-zero
    ["updated"] of the payload: after a failed fetch, or for a payload
    without that value, it returns its dict. A returned dict is flagged
    as fallback exactly when the fetch failed, and then the two rates the
    pages compute from it are returned; it takes its counts from the
    payload, a payload without ["cases"] counting 0 cases, for which both
    rates are 0.0 and nothing is divided; and its update time is missing
    exactly when the payload has no non-zero ["updated"]. *)
Theorem current_stats_fail_only_on_updated :
  forall data : option JsonObject,
    (get_current_stats data = UpdatedError ->
     exists payload,
       data = Some payload /\ dict_get payload "updated" 0 <> 0) /\
    (forall stats : CurrentStats,
        get_current_stats data = Stats stats ->
        (st_is_fallback stats = true <-> data = None) /\
        (data = None ->
         st_updated stats = Some now_isoformat /\
         exists cfr recovery_rate : float,
           calculate_cfr (st_deaths stats) (st_cases stats) = Returned cfr /\
           calculate_recovery_rate (st_recovered stats) (st_cases stats)
           = Returned recovery_rate) /\
        (forall payload,
            data = Some payload ->
            st_cases stats = dict_get payload "cases" 0 /\
            st_deaths stats = dict_get payload "deaths" 0 /\
            st_recovered stats = dict_get payload "recovered" 0 /\
            (st_updated stats = None <-> dict_get payload "updated" 0 = 0)) /\
        (forall payload,
            data = Some payload -> ~ In "cases"%string (keys payload) ->
            calculate_cfr (st_deaths stats) (st_cases stats)
            = Returned 0%float /\
            calculate_recovery_rate (st_recovered stats) (st_cases stats)
            = Returned 0%float)).
Proof.
  intros [payload | ].
  - assert (Hshape :
              (get_current_stats (Some payload) = UpdatedError ->
               dict_get payload "updated" 0 <> 0) /\
              (forall stats,
                  get_current_stats (Some payload) = Stats stats ->
                  st_cases stats = dict_get payload "cases" 0 /\
                  st_deaths stats = dict_get payload "deaths" 0 /\
                  st_recovered stats = dict_get payload "recovered" 0 /\
                  st_is_fallback stats = false /\
                  (st_updated stats = None
                   <-> dict_get payload "updated" 0 = 0))).
    { unfold get_current_stats.
      destruct (Z.eqb_spec (dict_get payload "updated" 0) 0) as [Hz | Hnz].
      - split; [intros H; discriminate H | ].
        intros stats Hs. injection Hs as <-. cbn. tauto.
      - split; [intros _; exact Hnz | ].
        intros stats.
        destruct (int_truediv (dict_get payload "updated" 0) 1000)
          as [seconds | e]; [ | intros H; discriminate H].
        destruct (fromtimestamp_isoformat seconds) as [text | ];
          [ | intros H; discriminate H].
        intros Hs. injection Hs as <-. cbn.
        repeat (split; [reflexivity | ]).
        split; [intros H; discriminate H | intros H; contradiction]. }
    destruct Hshape as [Hfail Hok].
    split.
    + intros Hf. exists payload. split; [reflexivity | exact (Hfail Hf)].
    + intros stats Hs.
      destruct (Hok stats Hs) as (Hc & Hd & Hr & Hfb & Hupd).
      split; [rewrite Hfb; split; intros H; discriminate H | ].
      split; [intros H; discriminate H | ].
      split.
      * intros payload' Hp. injection Hp as <-. tauto.
      * intros payload' Hp Hmissing. injection Hp as <-.
        assert (Hzero : st_cases stats = 0).
        { rewrite Hc. apply dict_get_missing. exact Hmissing. }
        rewrite Hzero. split; reflexivity.
  - split; [intros H; discriminate H | ].
    intros stats Hs. cbn in Hs. injection Hs as <-.
    cbn [st_deaths st_cases st_recovered st_is_fallback st_updated].
    split; [tauto | ].
    split.
    + intros _. split; [reflexivity | ].
      eexists. eexists. split; vm_compute; reflexivity.
    + split; intros payload Hp; discriminate Hp.
Qed.

End CurrentStatsRates.

(* ================================================================= *)
(** * The fallback series: at least one case a day *)

Section ClipAndCast.

(** A finite value that is not below 1 truncates to an integer that is
    not below 1. *)
Lemma astype_int_not_below_one (x : float) :
  finite_float x = true ->
  (x <? 1)%float = false ->
  1 <= astype_int x.
Proof.
  unfold finite_float, astype_int. rewrite ltb_spec.
  pose proof (Prim2SF_valid x) as Hvalid.
  replace (Prim2SF 1) with (S754_finite false 4503599627370496 (-52))
    by reflexivity.
  destruct (Prim2SF x) as [s | s | | s m e]; try discriminate.
  intros _. unfold SFltb, SFcompare.
  destruct s; [intros H; discriminate H | ].
    unfold valid_binary, bounded, canonical_mantissa, fexp, emin in Hvalid.
    apply andb_true_iff in Hvalid. destruct Hvalid as [Hcanon _].
    apply Z.eqb_eq in Hcanon.
    pose proof (digits2_pos_lower m) as Hdig.
    change prec with 53 in Hcanon. change emax with 1024 in Hcanon.
    destruct (Z.compare_spec e (-52)) as [-> | Hlt | Hgt];
      [ | intros H; discriminate H | ].
    + destruct (PosDef.Pos.compare_cont Eq m 4503599627370496) eqn:Hm;
        [intros _ | intros H; discriminate H | intros _].
      * apply Pos.compare_eq in Hm. subst m. reflexivity.
      * apply Pos.compare_gt_iff in Hm.
        rewrite Z.shiftr_div_pow2 by lia.
        apply Z.div_le_lower_bound; [reflexivity | ].
        change (2 ^ 52 * 1) with 4503599627370496. lia.
    + intros _.
      assert (Hd : Zpos (digits2_pos m) = 53) by lia.
      rewrite Hd in Hdig. change (2 ^ (53 - 1)) with 4503599627370496 in Hdig.
      destruct e as [ | p | p].
      * lia.
      * rewrite Z.shiftl_mul_pow2 by lia.
        assert (0 < 2 ^ Z.pos p) by (apply Z.pow_pos_nonneg; lia). nia.
      * rewrite Z.shiftr_div_pow2 by lia.
        apply Z.div_le_lower_bound; [apply Z.pow_pos_nonneg; lia | ].
        assert (2 ^ Z.pos p <= 2 ^ 51) by (apply Z.pow_le_mono_r; lia).
        change (2 ^ 51) with 2251799813685248 in *. lia.
Qed.

Lemma clip_then_cast_at_least_one (x : float) :
  finite_float x = true -> 1 <= astype_int (clip_min 1 x).
Proof.
  intros Hfin. unfold clip_min. destruct (x <? 1)%float eqn:E.
  - vm_compute. discriminate.
  - apply astype_int_not_below_one; assumption.
Qed.

End ClipAndCast.

Section SamplePositive.

Context {NP : NumPy}.

Lemma sample_rows_daily (n : nat) :
  forall dates cum dth rec new : list Z,
    length dates = n -> length cum = n -> length dth = n ->
    length rec = n -> length new = n ->
    map Kasus_Baru (sample_rows dates cum dth rec new) = new.
Proof.
  induction n as [ | n IH];
    intros [ | t dates] [ | c cum] [ | d dth] [ | r rec] [ | x new];
    cbn [length sample_rows map]; intros H1 H2 H3 H4 H5;
    try discriminate; try reflexivity.
  cbn [Kasus_Baru]. f_equal. apply IH; congruence.
Qed.

Lemma sample_daily_cases (g : RandomState) :
  map Kasus_Baru (rows (fst (_get_sample_historical_df g)))
  = map (fun x => astype_int (clip_min 1 x)) sample_curve.
Proof.
  unfold _get_sample_historical_df, sample_curve.
  pose proof (np_random_normal_size 0%float 10%float 365 (np_random_seed 42))
    as Hn.
  destruct (np_random_normal 0 10 365 (np_random_seed 42)) as [noise g2].
  cbn [fst] in *. rewrite rows_range_index.
  rewrite (map_map (fun bn : float * float => (fst bn + snd bn)%float)
                   (fun x => astype_int (clip_min 1 x))).
  apply (sample_rows_daily 365);
    unfold cumsum;
    repeat first [ rewrite length_map | rewrite length_cumsum_from
                 | rewrite length_combine | rewrite length_seq | rewrite Hn ];
    reflexivity.
Qed.

(** When the noisy curve is finite everywhere (no NaN and no infinity
    from [exp] or from the generator), clipping at 1 before the cast
    leaves at least one new case on every day of the fallback series, so
    its cumulative cases are strictly increasing. *)
Theorem sample_cases_strictly_increase :
  forall g : RandomState,
    forallb finite_float sample_curve = true ->
    (forall r, In r (rows (fst (_get_sample_historical_df g))) ->
               1 <= Kasus_Baru r) /\
    (forall i prev cur,
        nth_error (rows (fst (_get_sample_historical_df g))) i = Some prev ->
        nth_error (rows (fst (_get_sample_historical_df g))) (S i) = Some cur ->
        Kasus prev < Kasus cur).
Proof.
  intros g Hfin.
  assert (Hpos : forall r, In r (rows (fst (_get_sample_historical_df g))) ->
                           1 <= Kasus_Baru r).
  { intros r Hr. apply (in_map Kasus_Baru) in Hr.
    rewrite sample_daily_cases, in_map_iff in Hr.
    destruct Hr as (x & <- & Hx).
    apply clip_then_cast_at_least_one.
    rewrite forallb_forall in Hfin. apply Hfin. exact Hx. }
  split; [exact Hpos | ].
  intros i prev cur Hp Hc.
  assert (Hstep : Kasus cur = Kasus prev + Kasus_Baru cur).
  { revert Hp Hc. unfold _get_sample_historical_df.
    destruct (np_random_normal 0 10 365 (np_random_seed 42)) as [noise g2].
    cbn [fst]. rewrite rows_range_index. unfold cumsum.
    apply sample_rows_running_total. }
  specialize (Hpos cur (nth_error_In _ _ Hc)). lia.
Qed.

End SamplePositive.

Lemma sample_cases_strictly_increase_witness :
  1 <= Kasus_Baru (mkRow 737485 1 0 0 1 0 0).
Proof.
  apply (@sample_cases_strictly_increase numpy_stub 0).
  - vm_compute. reflexivity.
  - vm_compute. left. reflexivity.
Defined.

(* ================================================================= *)
(** * The synthetic vaccination series *)

Section VaccineSample.

Context {NP : NumPy}.

Lemma astype_int_clip_zero (x : float) :
  finite_float x = true -> 0 <= astype_int (clip_min 0 x).
Proof.
  intros Hfin. unfold clip_min. destruct (x <? 0)%float eqn:E.
  - vm_compute. discriminate.
  - revert Hfin E. unfold finite_float, astype_int. rewrite ltb_spec.
    replace (Prim2SF 0) with (S754_zero false) by reflexivity.
    destruct (Prim2SF x) as [s | s | | s m e]; try discriminate; try lia.
    intros _. unfold SFltb, SFcompare.
    destruct s; [intros H; discriminate H | intros _].
    destruct e as [ | p | p].
    + lia.
    + apply Z.shiftl_nonneg. lia.
    + apply Z.shiftr_nonneg. lia.
Qed.

Lemma length_np_diff_from (xs : list float) :
  forall prev, length (np_diff_from prev xs) = length xs.
Proof.
  induction xs as [ | x rest IH]; intros prev; cbn; [reflexivity | ].
  now rewrite IH.
Qed.

Lemma length_vaccine_rows (n : nat) :
  forall dates total daily : list Z,
    length dates = n -> length total = n -> length daily = n ->
    length (vaccine_rows dates total daily) = n /\
    map Dosis_Harian (vaccine_rows dates total daily) = daily.
Proof.
  induction n as [ | n IH];
    intros [ | t dates] [ | c total] [ | d daily];
    cbn [length vaccine_rows map]; intros H1 H2 H3;
    try discriminate; try (split; reflexivity).
  destruct (IH dates total daily) as [Hl Hm]; try congruence.
  cbn [Dosis_Harian]. rewrite Hl, Hm. split; reflexivity.
Qed.

Lemma vaccine_rows_running_total (daily : list Z) :
  forall (acc : Z) (dates : list Z),
    (forall r, nth_error (vaccine_rows dates (cumsum_from acc daily) daily) 0
               = Some r ->
               Total_Vaksin r = acc + Dosis_Harian r) /\
    (forall i prev cur,
        nth_error (vaccine_rows dates (cumsum_from acc daily) daily) i
        = Some prev ->
        nth_error (vaccine_rows dates (cumsum_from acc daily) daily) (S i)
        = Some cur ->
        Total_Vaksin cur = Total_Vaksin prev + Dosis_Harian cur).
Proof.
  induction daily as [ | x daily IH]; intros acc dates.
  - destruct dates; split; intros; discriminate.
  - cbn [cumsum_from].
    destruct dates as [ | t dates];
      cbn [vaccine_rows]; try (split; intros; discriminate).
    destruct (IH (acc + x) dates) as [Hfirst Hadj].
    split.
    + intros r Hr. cbn in Hr. injection Hr as <-. reflexivity.
    + intros [ | i] prev cur Hp Hc.
      * cbn in Hp. injection Hp as <-. cbn [nth_error] in Hc.
        rewrite (Hfirst cur Hc). reflexivity.
      * cbn [nth_error] in Hp, Hc. exact (Hadj i prev cur Hp Hc).
Qed.

Lemma map_snd_combine_range {A : Type} (rs : list A) :
  map snd (combine (map Z.of_nat (seq 0 (length rs))) rs) = rs.
Proof.
  assert (H : forall (ls : list Z), length ls = length rs ->
                                    map snd (combine ls rs) = rs).
  { induction rs as [ | r rest IH]; intros [ | l ls] Hl; cbn in *;
      try reflexivity; try discriminate.
    f_equal. apply IH. lia. }
  apply H. now rewrite length_map, length_seq.
Qed.

(** The rows of the vaccination sample, and what they are built from. *)
Lemma sample_vaccine_rows (g : RandomState) :
  exists dates : list Z,
    map snd (fst (_get_sample_vaccine_df g))
    = vaccine_rows dates
        (cumsum_from 0 (map (fun x => astype_int (clip_min 0 x)) vaccine_curve))
        (map (fun x => astype_int (clip_min 0 x)) vaccine_curve) /\
    length dates = 730%nat /\
    length (map (fun x => astype_int (clip_min 0 x)) vaccine_curve) = 730%nat.
Proof.
  unfold _get_sample_vaccine_df, vaccine_curve.
  pose proof (np_random_normal_size 0%float 10000%float 730 (np_random_seed 42))
    as Hn.
  destruct (np_random_normal 0 10000 730 (np_random_seed 42)) as [noise g2].
  cbn [fst] in *.
  exists (map (fun i => ymd2ord 2021 1 13 + Z.of_nat i) (seq 0 730)).
  rewrite map_snd_combine_range.
  rewrite (map_map (fun dn : float * float => (fst dn + snd dn)%float)
                   (fun x => astype_int (clip_min 0 x))).
  unfold cumsum. split; [reflexivity | ].
  repeat first [ rewrite length_map | rewrite length_combine
               | rewrite length_np_diff_from | rewrite length_seq
               | rewrite Hn ].
  split; reflexivity.
Qed.

(** The vaccination sample has exactly 730 rows and does not depend on
    the state of the generator at the call. Its total is the running
    total of the daily doses; and when the noisy curve is finite
    everywhere, clipping at 0 before the cast leaves no negative daily
    dose, so the total never decreases. *)
Theorem sample_vaccine_totals :
  forall g g' : RandomState,
    length (fst (_get_sample_vaccine_df g)) = 730%nat /\
    _get_sample_vaccine_df g = _get_sample_vaccine_df g' /\
    (forall r, nth_error (map snd (fst (_get_sample_vaccine_df g))) 0 = Some r ->
               Total_Vaksin r = Dosis_Harian r) /\
    (forall i prev cur,
        nth_error (map snd (fst (_get_sample_vaccine_df g))) i = Some prev ->
        nth_error (map snd (fst (_get_sample_vaccine_df g))) (S i) = Some cur ->
        Total_Vaksin cur = Total_Vaksin prev + Dosis_Harian cur) /\
    (forallb finite_float vaccine_curve = true ->
     (forall r, In r (map snd (fst (_get_sample_vaccine_df g))) ->
                0 <= Dosis_Harian r) /\
     (forall i prev cur,
         nth_error (map snd (fst (_get_sample_vaccine_df g))) i = Some prev ->
         nth_error (map snd (fst (_get_sample_vaccine_df g))) (S i) = Some cur ->
         Total_Vaksin prev <= Total_Vaksin cur)).
Proof.
  intros g g'.
  destruct (sample_vaccine_rows g) as (dates & Hrows & Hdates & Hdaily).
  set (daily := map (fun x => astype_int (clip_min 0 x)) vaccine_curve) in *.
  destruct (length_vaccine_rows 730 dates (cumsum_from 0 daily) daily)
    as [Hlen Hdoses]; try assumption.
  { now rewrite length_cumsum_from. }
  destruct (vaccine_rows_running_total daily 0 dates) as [Hfirst Hadj].
  rewrite <- Hrows in Hfirst, Hadj, Hlen, Hdoses.
  split; [now rewrite length_map in Hlen | ].
  split; [reflexivity | ].
  split; [intros r Hr; rewrite (Hfirst r Hr); lia | ].
  split; [exact Hadj | ].
  intros Hfin.
  assert (Hpos : forall r, In r (map snd (fst (_get_sample_vaccine_df g))) ->
                           0 <= Dosis_Harian r).
  { intros r Hr. apply (in_map Dosis_Harian) in Hr.
    rewrite Hdoses in Hr. subst daily. rewrite in_map_iff in Hr.
    destruct Hr as (x & <- & Hx). apply astype_int_clip_zero.
    rewrite forallb_forall in Hfin. apply Hfin. exact Hx. }
  split; [exact Hpos | ].
  intros i prev cur Hp Hc. rewrite (Hadj i prev cur Hp Hc).
  specialize (Hpos cur (nth_error_In _ _ Hc)). lia.
Qed.

End VaccineSample.

(* ================================================================= *)
(** * Month names *)

Lemma read_int_py_str (z : Z) : read_int (py_str z) = Some z.
Proof.
  unfold read_int, py_str. rewrite DecimalString.NilEmpty.isi.
  cbn [option_map]. now rewrite DecimalZ.of_to.
Qed.

Lemma BULAN_ID_outside (m : Z) :
  (1 <=? m) && (m <=? 12) = false -> int_keyed_get BULAN_ID m = None.
Proof.
  intros Hout. unfold BULAN_ID. cbn [int_keyed_get].
  repeat match goal with
         | |- context [m =? ?k] => destruct (Z.eqb_spec m k); [subst m; discriminate Hout | ]
         end.
  reflexivity.
Qed.

Lemma month_name_is_no_number (m : Z) :
  read_int (get_bulan_indonesia m)
  = if (1 <=? m) && (m <=? 12) then None else Some m.
Proof.
  destruct ((1 <=? m) && (m <=? 12)) eqn:Hin.
  - apply andb_prop in Hin. destruct Hin as [Hlo Hhi].
    apply Z.leb_le in Hlo, Hhi.
    assert (Hm : m = 1 \/ m = 2 \/ m = 3 \/ m = 4 \/ m = 5 \/ m = 6 \/
                 m = 7 \/ m = 8 \/ m = 9 \/ m = 10 \/ m = 11 \/ m = 12) by lia.
    repeat (destruct Hm as [-> | Hm]; [vm_compute; reflexivity | ]).
    subst m. vm_compute. reflexivity.
  - unfold get_bulan_indonesia.
    rewrite (BULAN_ID_outside m Hin). apply read_int_py_str.
Qed.

Lemma month_names_distinct (m n : Z) :
  (1 <=? m) && (m <=? 12) = true ->
  (1 <=? n) && (n <=? 12) = true ->
  get_bulan_indonesia m = get_bulan_indonesia n -> m = n.
Proof.
  intros Hm Hn.
  apply andb_prop in Hm, Hn. destruct Hm as [Hm1 Hm2], Hn as [Hn1 Hn2].
  apply Z.leb_le in Hm1, Hm2, Hn1, Hn2.
  assert (Em : m = 1 \/ m = 2 \/ m = 3 \/ m = 4 \/ m = 5 \/ m = 6 \/
               m = 7 \/ m = 8 \/ m = 9 \/ m = 10 \/ m = 11 \/ m = 12) by lia.
  assert (En : n = 1 \/ n = 2 \/ n = 3 \/ n = 4 \/ n = 5 \/ n = 6 \/
               n = 7 \/ n = 8 \/ n = 9 \/ n = 10 \/ n = 11 \/ n = 12) by lia.
  clear Hm1 Hm2 Hn1 Hn2.
  repeat (destruct Em as [-> | Em]);
    try subst m;
    repeat (destruct En as [-> | En]);
    try subst n;
    vm_compute; intros H; first [reflexivity | discriminate H].
Qed.

(** [get_bulan_indonesia] never gives two months the same label: the
    twelve names are pairwise distinct, none of them reads as a number,
    and any other month is shown by its own decimal numeral. *)
Theorem get_bulan_indonesia_labels_distinct :
  forall m n : Z,
    m <> n -> get_bulan_indonesia m <> get_bulan_indonesia n.
Proof.
  intros m n Hne Heq.
  pose proof (month_name_is_no_number m) as Hm.
  pose proof (month_name_is_no_number n) as Hn.
  rewrite Heq in Hm. rewrite Hm in Hn.
  destruct ((1 <=? m) && (m <=? 12)) eqn:Em;
    destruct ((1 <=? n) && (n <=? 12)) eqn:En;
    try discriminate Hn.
  - apply Hne. exact (month_names_distinct m n Em En Heq).
  - apply Hne. congruence.
Qed.

Lemma get_bulan_indonesia_labels_witness :
  get_bulan_indonesia 3 <> get_bulan_indonesia 13.
Proof.
  apply (get_bulan_indonesia_labels_distinct 3 13). lia.
Defined.
